(** * Library API (bookstore): borrow/return state machine

    A shallow embedding of [app/models.py], [app/schemas.py] and the request
    handlers of [app/main.py].  The committed content of the [books] table is
    passed explicitly through every handler; a handler returns what it
    returns or raises, together with the table as it is once the handler is
    left (after [db.commit()], or after [db.rollback()]).  The wall clock read
    by [datetime.now(timezone.utc)] is an argument of the borrowing handler. *)

From Stdlib Require Import ZArith List String Bool Lia Permutation.
Import ListNotations.
Open Scope string_scope.
Open Scope list_scope.
Open Scope Z_scope.

(** Timestamps, as seconds of UTC time. *)
Definition datetime : Type := Z.

(** ** app/models.py *)

Module models.

(** A row of the table [books]. [title], [author] and [is_borrowed] are
    [nullable=False]; the two borrowing columns are nullable. *)
Record Book : Type := mkBook {
  book_id : Z;
  title : string;
  author : string;
  is_borrowed : bool;
  borrowed_date : option datetime;
  borrower_card_number : option Z
}.

(** [CheckConstraint('book_id >= 100000 AND book_id <= 999999')]. *)
Definition book_id_6_digits (r : Book) : bool :=
  (100000 <=? book_id r) && (book_id r <=? 999999).

(** [CheckConstraint('borrower_card_number >= 100000 AND
    borrower_card_number <= 999999')]; on a NULL column the condition is
    unknown, which a CHECK constraint accepts. *)
Definition borrower_card_number_6_digits (r : Book) : bool :=
  match borrower_card_number r with
  | None => true
  | Some c => (100000 <=? c) && (c <=? 999999)
  end.

Definition table_args (r : Book) : bool :=
  book_id_6_digits r && borrower_card_number_6_digits r.

End models.

(** ** app/schemas.py *)

Module schemas.

Record BookCreate : Type := mkBookCreate {
  book_id : Z;
  title : string;
  author : string
}.

Record BorrowRequest : Type := mkBorrowRequest {
  borrower_card_number : Z
}.

(** [Field(..., ge=100000, le=999999)], used for [book_id] and for
    [borrower_card_number]. *)
Definition six_digits (n : Z) : bool := (100000 <=? n) && (n <=? 999999).

(** Validation of the body of [POST /books/]: [book_id] carries the range
    constraint, [title] and [author] are declared [str] and nothing more. *)
Definition validate_BookCreate (id : Z) (t a : string) : option BookCreate :=
  if six_digits id then Some (mkBookCreate id t a) else None.

(** Validation of the body of [PATCH /books/{book_id}/borrow]. *)
Definition validate_BorrowRequest (card : Z) : option BorrowRequest :=
  if six_digits card then Some (mkBorrowRequest card) else None.

End schemas.

(** ** The session: queries and commits on the table *)

(** Committed rows of [books], oldest first. *)
Definition Database : Type := list models.Book.

Definition has_id (id : Z) (r : models.Book) : bool := models.book_id r =? id.

(** [db.query(models.Book).filter(models.Book.book_id == book_id).first()] *)
Definition query_first (id : Z) (db : Database) : option models.Book :=
  find (has_id id) db.

(** [db.query(models.Book).all()] *)
Definition query_all (db : Database) : list models.Book := db.

(** A text the database driver can send: one without the character NUL.  A
    string parameter that contains it is refused by the driver when the
    statement is flushed, with an exception that is not a database error. *)
Fixpoint storable_text (s : string) : bool :=
  match s with
  | EmptyString => true
  | String c rest => negb (Ascii.eqb c Ascii.zero) && storable_text rest
  end.

(** How a commit ends: the rows are written, or the database refuses them
    ([IntegrityError]), or another exception is raised. *)
Inductive Commit : Type :=
| Committed (db : Database)
| IntegrityError
| OtherException.

(** [db.add(row); db.commit()]: the INSERT is not sent when a text of the row
    cannot be stored; it is refused (IntegrityError) when the primary key is
    taken or a CHECK constraint fails. *)
Definition add_commit (row : models.Book) (db : Database) : Commit :=
  if negb (storable_text (models.title row) && storable_text (models.author row))
  then OtherException
  else if existsb (has_id (models.book_id row)) db then IntegrityError
  else if models.table_args row then Committed (db ++ [row])
  else IntegrityError.

(** Attribute assignments on a loaded row followed by [db.commit()]: an
    UPDATE of the row with that primary key, refused when the new row fails a
    CHECK constraint.  The row is rewritten where it stands in the list; the
    place where an unordered listing shows it afterwards is not fixed by the
    source. *)
Definition update_commit (row : models.Book) (db : Database) : option Database :=
  if models.table_args row
  then Some (map (fun r => if has_id (models.book_id row) r then row else r) db)
  else None.

(** [db.delete(row); db.commit()]: DELETE of the row with that primary key. *)
Definition delete_commit (row : models.Book) (db : Database) : Database :=
  filter (fun r => negb (has_id (models.book_id row) r)) db.

(** [db.refresh(row)]: the row is read again by its primary key. *)
Definition refresh (row : models.Book) (db : Database) : option models.Book :=
  query_first (models.book_id row) db.

(** ** app/main.py *)

(** What a request can fail with: the 422 answer the framework gives when a
    request does not validate against its schema, or an [HTTPException]
    raised by a handler. *)
Inductive Failure : Type :=
| RequestValidationError
| HTTPException (status_code : Z) (detail : string).

Inductive Result (A : Type) : Type :=
| Return (a : A)
| Raise (e : Failure).
Arguments Return {A} a.
Arguments Raise {A} e.

(** The failure reasons of the specification, as the handlers raise them. *)
Definition ValidationError : Failure := RequestValidationError.
Definition AlreadyExists : Failure :=
  HTTPException 400 "Book with this book_id already exists.".
Definition NotFound : Failure := HTTPException 404 "Book not found.".
Definition AlreadyBorrowed : Failure :=
  HTTPException 400 "Book is already borrowed.".
Definition NotBorrowed : Failure :=
  HTTPException 400 "Book is not currently borrowed.".

(** [models.Book] built from the fields of [book.model_dump()]: the three
    given columns; [is_borrowed] takes its column default [False] and the
    nullable columns stay NULL. *)
Definition new_Book (book : schemas.BookCreate) : models.Book :=
  models.mkBook (schemas.book_id book) (schemas.title book) (schemas.author book)
                false None None.

(** In each handler a failed commit is caught and rolled back, so the table
    is the one before the call: [create_book] answers an [IntegrityError]
    with 400 and any other exception with 500, its last [except] branch (the
    detail there goes on with the text of the exception); [borrow_book] and
    [return_book] answer any exception with 500.  A failed [db.refresh] falls
    in the handler's last [except] branch.  The database is taken to be
    reachable: the [OperationalError] of a lost connection is not modelled.
    The order in which an unordered listing shows the rows is not fixed by
    the source; the table keeps a row that is updated at its place. *)
Definition create_book (book : schemas.BookCreate) (db : Database)
  : Result models.Book * Database :=
  match query_first (schemas.book_id book) db with
  | Some _ => (Raise AlreadyExists, db)
  | None =>
      let new_book := new_Book book in
      match add_commit new_book db with
      | IntegrityError =>
          (Raise (HTTPException 400 "Database constraint violation"), db)
      | OtherException => (Raise (HTTPException 500 "Internal server error"), db)
      | Committed db' =>
          match refresh new_book db' with
          | Some shown => (Return shown, db')
          | None =>
              (Raise (HTTPException 500 "Internal server error"), db')
          end
      end
  end.

Definition get_all_books (db : Database)
  : Result (list models.Book) * Database :=
  (Return (query_all db), db).

Definition delete_book (book_id : Z) (db : Database) : Result unit * Database :=
  match query_first book_id db with
  | None => (Raise NotFound, db)
  | Some db_book => (Return tt, delete_commit db_book db)
  end.

Definition borrow_book (book_id : Z) (borrow_request : schemas.BorrowRequest)
    (now : datetime) (db : Database) : Result models.Book * Database :=
  match query_first book_id db with
  | None => (Raise NotFound, db)
  | Some db_book =>
      if models.is_borrowed db_book then (Raise AlreadyBorrowed, db)
      else
        let db_book' :=
          models.mkBook (models.book_id db_book) (models.title db_book)
                        (models.author db_book)
                        true
                        (Some now)
                        (Some (schemas.borrower_card_number borrow_request)) in
        match update_commit db_book' db with
        | None => (Raise (HTTPException 500 "Failed to borrow book"), db)
        | Some db' =>
            match refresh db_book' db' with
            | Some shown => (Return shown, db')
            | None => (Raise (HTTPException 500 "Failed to borrow book"), db')
            end
        end
  end.

Definition return_book (book_id : Z) (db : Database)
  : Result models.Book * Database :=
  match query_first book_id db with
  | None => (Raise NotFound, db)
  | Some db_book =>
      if negb (models.is_borrowed db_book) then (Raise NotBorrowed, db)
      else
        let db_book' :=
          models.mkBook (models.book_id db_book) (models.title db_book)
                        (models.author db_book)
                        false None None in
        match update_commit db_book' db with
        | None => (Raise (HTTPException 500 "Failed to return book"), db)
        | Some db' =>
            match refresh db_book' db' with
            | Some shown => (Return shown, db')
            | None => (Raise (HTTPException 500 "Failed to return book"), db')
            end
        end
  end.

(** ** The routes

    The framework validates a request against the schemas of the handler's
    signature before the handler runs, and answers 422 when that fails.  The
    path parameter [book_id: int] of the three [/books/{book_id}] routes has
    no constraint besides its type. *)

(** [@app.post("/books/")] *)
Definition POST_books (book_id : Z) (title author : string) (db : Database)
  : Result models.Book * Database :=
  match schemas.validate_BookCreate book_id title author with
  | None => (Raise ValidationError, db)
  | Some book => create_book book db
  end.

(** [@app.get("/books/")] *)
Definition GET_books (db : Database) : Result (list models.Book) * Database :=
  get_all_books db.

(** [@app.delete("/books/{book_id}")] *)
Definition DELETE_books (book_id : Z) (db : Database) : Result unit * Database :=
  delete_book book_id db.

(** [@app.patch("/books/{book_id}/borrow")] *)
Definition PATCH_borrow (book_id : Z) (borrower_card_number : Z)
    (now : datetime) (db : Database) : Result models.Book * Database :=
  match schemas.validate_BorrowRequest borrower_card_number with
  | None => (Raise ValidationError, db)
  | Some borrow_request => borrow_book book_id borrow_request now db
  end.

(** [@app.patch("/books/{book_id}/return")] *)
Definition PATCH_return (book_id : Z) (db : Database)
  : Result models.Book * Database :=
  return_book book_id db.

(** A request to the service; a borrowing request carries the time at which
    it is served. *)
Inductive Request : Type :=
| Create (book_id : Z) (title author : string)
| ListAll
| Delete (book_id : Z)
| Borrow (book_id : Z) (borrower_card_number : Z) (now : datetime)
| GiveBack (book_id : Z).

(** The table after a request has been served. *)
Definition serve (rq : Request) (db : Database) : Database :=
  match rq with
  | Create i t a => snd (POST_books i t a db)
  | ListAll => snd (GET_books db)
  | Delete i => snd (DELETE_books i db)
  | Borrow i c now => snd (PATCH_borrow i c now db)
  | GiveBack i => snd (PATCH_return i db)
  end.

(** The table after a sequence of requests, served one after the other. *)
Definition serve_all (rqs : list Request) (db : Database) : Database :=
  fold_left (fun d rq => serve rq d) rqs db.

(** ** Properties of a table *)

(** The primary key: no two rows with one [book_id]. *)
Fixpoint primary_key (db : Database) : bool :=
  match db with
  | [] => true
  | r :: rest => negb (existsb (has_id (models.book_id r)) rest) && primary_key rest
  end.

(** A table as the database keeps it: primary key and CHECK constraints. *)
Definition table_constraints (db : Database) : bool :=
  primary_key db && forallb models.table_args db.

(** The three borrowing columns agree. *)
Definition coherent (r : models.Book) : Prop :=
  (models.is_borrowed r = true <-> models.borrowed_date r <> None) /\
  (models.borrowed_date r <> None <-> models.borrower_card_number r <> None).

(** The row [borrow_book] writes, and the row [return_book] writes. *)
Definition borrowed_row (r : models.Book) (card : Z) (now : datetime) : models.Book :=
  models.mkBook (models.book_id r) (models.title r) (models.author r)
                true (Some now) (Some card).

Definition returned_row (r : models.Book) : models.Book :=
  models.mkBook (models.book_id r) (models.title r) (models.author r)
                false None None.

(** The table with every row of key [id] replaced by [row]. *)
Definition replaced (id : Z) (row : models.Book) (db : Database) : Database :=
  map (fun r => if has_id id r then row else r) db.

(** ** Status codes and failures of an answer *)

(** The status of a failure: 422 for a request that does not validate, the
    [status_code] of the [HTTPException] otherwise. *)
Definition failure_status (e : Failure) : Z :=
  match e with
  | RequestValidationError => 422
  | HTTPException status_code _ => status_code
  end.

(** The status of an answer of a route whose decorator declares [success]
    ([status_code=201] for [create_book], [status_code=204] for
    [delete_book], 200 when nothing is declared). *)
Definition status {A : Type} (success : Z) (answer : Result A) : Z :=
  match answer with
  | Return _ => success
  | Raise e => failure_status e
  end.



(** The columns no handler assigns after the creation. *)
Definition identity (r : models.Book) : Z * string * string :=
  (models.book_id r, models.title r, models.author r).

(** ** tests/test_api.py, example_usage.py: [clear_all_books]

    The books are listed once, then a DELETE is sent for the [book_id] of each
    listed book. *)
Definition clear_all_books (db : Database) : Database :=
  match fst (GET_books db) with
  | Return books =>
      fold_left (fun d book => snd (DELETE_books (models.book_id book) d)) books db
  | Raise _ => db
  end.

(** ** tests/test_api.py: two tests that draw a [book_id]

    [book_id] is the number drawn by [random.randint(100000, 999999)]; a test
    is [true] when all its assertions hold. *)
Definition test_create_book (book_id : Z) (db : Database) : bool :=
  let response := fst (POST_books book_id "Test Book" "Test Author" db) in
  (status 201 response =? 201) &&
  match response with
  | Return data =>
      (models.book_id data =? book_id) &&
      String.eqb (models.title data) "Test Book" &&
      String.eqb (models.author data) "Test Author" &&
      negb (models.is_borrowed data)
  | Raise _ => false
  end.

Definition test_delete_non_existent_book (book_id : Z) (db : Database) : bool :=
  let response := fst (DELETE_books book_id db) in
  status 204 response =? 404.

(** ** app/main.py: connecting to the database at start-up

    [for i in range(5)]: [create_all] is tried; on success the loop is left, on
    failure the exception is raised again when [i == 4] and otherwise the
    process sleeps [2**i] seconds.  [create_all i] tells whether the attempt
    number [i] succeeds; the seconds slept are recorded in order. *)
Inductive Startup : Type :=
| Proceeds (slept : list Z)
| Raises (slept : list Z).

Fixpoint connect_loop (create_all : nat -> bool) (range : list nat)
    (slept : list Z) : Startup :=
  match range with
  | [] => Proceeds slept
  | i :: rest =>
      if create_all i then Proceeds slept
      else if Nat.eqb i 4 then Raises slept
      else connect_loop create_all rest (slept ++ [2 ^ Z.of_nat i])
  end.

Definition connect (create_all : nat -> bool) : Startup :=
  connect_loop create_all (seq 0 5) [].

(** ** Two borrowings served at once

    [borrow_book] reaches the database twice: it reads the book (the query and
    the two checks on the loaded row), then writes it (the three assignments,
    the commit and the refresh).  The handler takes no lock on the row between
    the two, and its UPDATE is addressed by [book_id] alone, whatever
    [is_borrowed] is by then. *)

(** The first access: the row the handler holds after the query, or the
    exception it raises. *)
Definition borrow_book_read (book_id : Z) (db : Database) : Result models.Book :=
  match query_first book_id db with
  | None => Raise NotFound
  | Some db_book =>
      if models.is_borrowed db_book then Raise AlreadyBorrowed else Return db_book
  end.

(** The second access, from the row read before, on the table as it is by
    then. *)
Definition borrow_book_write (db_book : models.Book)
    (borrow_request : schemas.BorrowRequest) (now : datetime) (db : Database)
  : Result models.Book * Database :=
  let db_book' :=
    models.mkBook (models.book_id db_book) (models.title db_book)
                  (models.author db_book)
                  true
                  (Some now)
                  (Some (schemas.borrower_card_number borrow_request)) in
  match update_commit db_book' db with
  | None => (Raise (HTTPException 500 "Failed to borrow book"), db)
  | Some db' =>
      match refresh db_book' db' with
      | Some shown => (Return shown, db')
      | None => (Raise (HTTPException 500 "Failed to borrow book"), db')
      end
  end.

(** Where a request is: not started, holding the row it has read, or
    answered. *)
Inductive Progress : Type :=
| Waiting
| Loaded (db_book : models.Book)
| Answered (answer : Result models.Book).

(** One database access of a request. *)
Definition advance (book_id : Z) (borrow_request : schemas.BorrowRequest)
    (now : datetime) (p : Progress) (db : Database) : Progress * Database :=
  match p with
  | Waiting =>
      match borrow_book_read book_id db with
      | Return db_book => (Loaded db_book, db)
      | Raise e => (Answered (Raise e), db)
      end
  | Loaded db_book =>
      let (answer, db') := borrow_book_write db_book borrow_request now db in
      (Answered answer, db')
  | Answered answer => (Answered answer, db)
  end.

(** Two borrowings of one book, their accesses interleaved as the schedule
    says: [true] lets the first request make its next access, [false] the
    second one. *)
Fixpoint race (book_id : Z) (request1 request2 : schemas.BorrowRequest)
    (now1 now2 : datetime) (schedule : list bool)
    (state : Progress * Progress * Database) : Progress * Progress * Database :=
  match schedule with
  | [] => state
  | turn :: rest =>
      let '(p1, p2, db) := state in
      let state' :=
        if turn
        then let (p1', db') := advance book_id request1 now1 p1 db in (p1', p2, db')
        else let (p2', db') := advance book_id request2 now2 p2 db in (p1, p2', db') in
      race book_id request1 request2 now1 now2 rest state'
  end.

(** The scenario of the specification: a book, and the same book lent to the
    holder of card 654321. *)
Definition orwell : models.Book :=
  models.mkBook 123456 "1984" "Orwell" false None None.

Definition orwell_lent : models.Book :=
  models.mkBook 123456 "1984" "Orwell" true (Some 1700000000) (Some 654321).

(** ** Queries *)

Lemma has_id_true (id : Z) (r : models.Book) :
  has_id id r = true <-> models.book_id r = id.
Proof. unfold has_id. apply Z.eqb_eq. Qed.

Lemma has_id_false (id : Z) (r : models.Book) :
  has_id id r = false <-> models.book_id r <> id.
Proof. unfold has_id. apply Z.eqb_neq. Qed.

Lemma query_first_Some (id : Z) (db : Database) (r : models.Book) :
  query_first id db = Some r -> In r db /\ models.book_id r = id.
Proof.
  unfold query_first. intros H. apply find_some in H.
  destruct H as [Hin Hid]. split; [assumption|]. now apply has_id_true.
Qed.

Lemma query_first_None (id : Z) (db : Database) :
  query_first id db = None <-> ~ In id (map models.book_id db).
Proof.
  unfold query_first. induction db as [|r rest IH]; simpl.
  - split; [intros _ []|reflexivity].
  - destruct (has_id id r) eqn:E.
    + apply has_id_true in E. split; [discriminate|]. intros H. exfalso. apply H. now left.
    + apply has_id_false in E. rewrite IH. split.
      * intros H [H'|H']; [contradiction|]. now apply H.
      * intros H H'. apply H. now right.
Qed.

Lemma existsb_query_first (id : Z) (db : Database) :
  existsb (has_id id) db = false <-> query_first id db = None.
Proof.
  unfold query_first. induction db as [|r rest IH]; simpl.
  - split; reflexivity.
  - destruct (has_id id r); simpl; [split; discriminate|exact IH].
Qed.

Lemma query_first_app_new (id : Z) (db : Database) (row : models.Book) :
  query_first id db = None -> models.book_id row = id ->
  query_first id (db ++ [row]) = Some row.
Proof.
  unfold query_first. intros Hn Hid. induction db as [|r rest IH]; simpl in *.
  - apply has_id_true in Hid. now rewrite Hid.
  - destruct (has_id id r); [discriminate|]. now apply IH.
Qed.

Lemma query_first_app_other (id : Z) (db : Database) (row : models.Book) :
  models.book_id row <> id ->
  query_first id (db ++ [row]) = query_first id db.
Proof.
  unfold query_first. intros Hid. induction db as [|r rest IH]; simpl.
  - apply has_id_false in Hid. now rewrite Hid.
  - destruct (has_id id r); [reflexivity|exact IH].
Qed.

Lemma query_first_replaced (id : Z) (db : Database) (row old : models.Book) :
  models.book_id row = id -> query_first id db = Some old ->
  query_first id (replaced id row db) = Some row.
Proof.
  unfold query_first, replaced. intros Hid. apply has_id_true in Hid.
  induction db as [|r rest IH]; simpl; [discriminate|].
  destruct (has_id id r) eqn:E; simpl.
  - now rewrite Hid.
  - rewrite E. exact IH.
Qed.

Lemma query_first_replaced_other (id id' : Z) (db : Database) (row : models.Book) :
  models.book_id row = id -> id' <> id ->
  query_first id' (replaced id row db) = query_first id' db.
Proof.
  unfold query_first, replaced. intros Hid Hne.
  induction db as [|r rest IH]; simpl; [reflexivity|].
  destruct (has_id id r) eqn:E.
  - apply has_id_true in E.
    assert (has_id id' row = false) as -> by (apply has_id_false; congruence).
    assert (has_id id' r = false) as -> by (apply has_id_false; congruence).
    exact IH.
  - destruct (has_id id' r); [reflexivity|exact IH].
Qed.

Lemma query_first_deleted (id : Z) (db : Database) :
  query_first id (filter (fun r => negb (has_id id r)) db) = None.
Proof.
  unfold query_first. induction db as [|r rest IH]; simpl; [reflexivity|].
  destruct (has_id id r) eqn:E; simpl; [exact IH|]. now rewrite E.
Qed.

Lemma query_first_deleted_other (id id' : Z) (db : Database) :
  id' <> id ->
  query_first id' (filter (fun r => negb (has_id id r)) db) = query_first id' db.
Proof.
  unfold query_first. intros Hne. induction db as [|r rest IH]; simpl; [reflexivity|].
  destruct (has_id id r) eqn:E; simpl.
  - apply has_id_true in E.
    assert (has_id id' r = false) as -> by (apply has_id_false; congruence).
    exact IH.
  - destruct (has_id id' r); [reflexivity|exact IH].
Qed.

(** ** What each handler does, case by case *)

Lemma six_digits_range (n : Z) :
  schemas.six_digits n = true <-> 100000 <= n <= 999999.
Proof. unfold schemas.six_digits. rewrite andb_true_iff, !Z.leb_le. reflexivity. Qed.

Lemma table_args_new (id : Z) (t a : string) :
  schemas.six_digits id = true ->
  models.table_args (models.mkBook id t a false None None) = true.
Proof.
  intros H. unfold models.table_args, models.book_id_6_digits,
    models.borrower_card_number_6_digits. simpl.
  unfold schemas.six_digits in H. now rewrite H.
Qed.

Lemma table_args_borrowed (r : models.Book) (card : Z) (now : datetime) :
  models.book_id_6_digits r = true -> schemas.six_digits card = true ->
  models.table_args (borrowed_row r card now) = true.
Proof.
  intros Hr Hc. unfold models.table_args, models.borrower_card_number_6_digits.
  unfold models.book_id_6_digits in *. simpl.
  unfold schemas.six_digits in Hc. now rewrite Hr, Hc.
Qed.

Lemma table_args_returned (r : models.Book) :
  models.book_id_6_digits r = true -> models.table_args (returned_row r) = true.
Proof.
  intros Hr. unfold models.table_args, models.borrower_card_number_6_digits.
  unfold models.book_id_6_digits in *. simpl. now rewrite Hr.
Qed.

Lemma table_args_book_id (r : models.Book) :
  models.table_args r = true -> models.book_id_6_digits r = true.
Proof. unfold models.table_args. intros H. now apply andb_true_iff in H. Qed.

Lemma create_book_fresh (book : schemas.BookCreate) (db : Database) :
  schemas.six_digits (schemas.book_id book) = true ->
  storable_text (schemas.title book) && storable_text (schemas.author book) = true ->
  query_first (schemas.book_id book) db = None ->
  create_book book db = (Return (new_Book book), db ++ [new_Book book]).
Proof.
  intros Hv Hs Hn. unfold create_book, add_commit, refresh. rewrite Hn. simpl.
  rewrite Hs. simpl.
  apply existsb_query_first in Hn. rewrite Hn.
  unfold new_Book at 1. rewrite (table_args_new _ _ _ Hv).
  rewrite query_first_app_new; [reflexivity| |reflexivity].
  now apply existsb_query_first.
Qed.

Lemma create_book_unstorable (book : schemas.BookCreate) (db : Database) :
  storable_text (schemas.title book) && storable_text (schemas.author book) = false ->
  query_first (schemas.book_id book) db = None ->
  create_book book db = (Raise (HTTPException 500 "Internal server error"), db).
Proof.
  intros Hs Hn. unfold create_book, add_commit. rewrite Hn. simpl. now rewrite Hs.
Qed.

Lemma create_book_taken (book : schemas.BookCreate) (db : Database) (old : models.Book) :
  query_first (schemas.book_id book) db = Some old ->
  create_book book db = (Raise AlreadyExists, db).
Proof. intros H. unfold create_book. now rewrite H. Qed.

Lemma POST_books_written (id : Z) (t a : string) (db : Database) :
  snd (POST_books id t a db) = db \/
  (schemas.six_digits id = true /\
   storable_text t && storable_text a = true /\
   query_first id db = None /\
   POST_books id t a db =
     (Return (models.mkBook id t a false None None),
      db ++ [models.mkBook id t a false None None])).
Proof.
  unfold POST_books, schemas.validate_BookCreate.
  destruct (schemas.six_digits id) eqn:Hv; [|now left].
  destruct (query_first id db) as [old|] eqn:Hq.
  - left. now rewrite (create_book_taken _ db old).
  - destruct (storable_text t && storable_text a) eqn:Hs.
    + right. repeat split; try reflexivity.
      now apply (create_book_fresh (schemas.mkBookCreate id t a) db).
    + left. now rewrite create_book_unstorable.
Qed.

Lemma borrow_book_free (id : Z) (rq : schemas.BorrowRequest) (now : datetime)
    (db : Database) (old : models.Book) :
  query_first id db = Some old -> models.is_borrowed old = false ->
  models.table_args (borrowed_row old (schemas.borrower_card_number rq) now) = true ->
  borrow_book id rq now db =
    (Return (borrowed_row old (schemas.borrower_card_number rq) now),
     replaced id (borrowed_row old (schemas.borrower_card_number rq) now) db).
Proof.
  intros Hq Hb Hok. unfold borrow_book, update_commit, refresh. rewrite Hq, Hb.
  fold (borrowed_row old (schemas.borrower_card_number rq) now). rewrite Hok.
  destruct (query_first_Some _ _ _ Hq) as [_ Hid].
  change (models.book_id (borrowed_row old (schemas.borrower_card_number rq) now))
    with (models.book_id old). rewrite Hid.
  fold (replaced id (borrowed_row old (schemas.borrower_card_number rq) now) db).
  now rewrite (query_first_replaced id db _ old).
Qed.

Lemma borrow_book_refused (id : Z) (rq : schemas.BorrowRequest) (now : datetime)
    (db : Database) (old : models.Book) :
  query_first id db = Some old -> models.is_borrowed old = false ->
  models.table_args (borrowed_row old (schemas.borrower_card_number rq) now) = false ->
  borrow_book id rq now db = (Raise (HTTPException 500 "Failed to borrow book"), db).
Proof.
  intros Hq Hb Hok. unfold borrow_book, update_commit. rewrite Hq, Hb.
  fold (borrowed_row old (schemas.borrower_card_number rq) now). now rewrite Hok.
Qed.

Lemma borrow_book_taken (id : Z) (rq : schemas.BorrowRequest) (now : datetime)
    (db : Database) (old : models.Book) :
  query_first id db = Some old -> models.is_borrowed old = true ->
  borrow_book id rq now db = (Raise AlreadyBorrowed, db).
Proof. intros Hq Hb. unfold borrow_book. now rewrite Hq, Hb. Qed.

Lemma borrow_book_absent (id : Z) (rq : schemas.BorrowRequest) (now : datetime)
    (db : Database) :
  query_first id db = None -> borrow_book id rq now db = (Raise NotFound, db).
Proof. intros Hq. unfold borrow_book. now rewrite Hq. Qed.

Lemma return_book_taken (id : Z) (db : Database) (old : models.Book) :
  query_first id db = Some old -> models.is_borrowed old = true ->
  models.book_id_6_digits old = true ->
  return_book id db = (Return (returned_row old), replaced id (returned_row old) db).
Proof.
  intros Hq Hb Hok. unfold return_book, update_commit, refresh. rewrite Hq, Hb. simpl negb.
  cbv iota. fold (returned_row old). rewrite (table_args_returned _ Hok).
  destruct (query_first_Some _ _ _ Hq) as [_ Hid].
  change (models.book_id (returned_row old)) with (models.book_id old). rewrite Hid.
  fold (replaced id (returned_row old) db).
  now rewrite (query_first_replaced id db _ old).
Qed.

Lemma return_book_free (id : Z) (db : Database) (old : models.Book) :
  query_first id db = Some old -> models.is_borrowed old = false ->
  return_book id db = (Raise NotBorrowed, db).
Proof. intros Hq Hb. unfold return_book. now rewrite Hq, Hb. Qed.

Lemma return_book_absent (id : Z) (db : Database) :
  query_first id db = None -> return_book id db = (Raise NotFound, db).
Proof. intros Hq. unfold return_book. now rewrite Hq. Qed.

Lemma delete_book_absent (id : Z) (db : Database) :
  query_first id db = None -> delete_book id db = (Raise NotFound, db).
Proof. intros Hq. unfold delete_book. now rewrite Hq. Qed.

Lemma delete_book_present (id : Z) (db : Database) (old : models.Book) :
  query_first id db = Some old ->
  delete_book id db = (Return tt, filter (fun r => negb (has_id id r)) db).
Proof.
  intros Hq. unfold delete_book, delete_commit. rewrite Hq.
  destruct (query_first_Some _ _ _ Hq) as [_ Hid]. now rewrite Hid.
Qed.

(** ** Tables kept by the database *)

Lemma primary_key_NoDup (db : Database) :
  primary_key db = true <-> NoDup (map models.book_id db).
Proof.
  induction db as [|r rest IH]; simpl.
  - split; [constructor|reflexivity].
  - rewrite andb_true_iff, negb_true_iff, existsb_query_first, query_first_None, IH.
    split.
    + intros [Hn Hd]. now constructor.
    + intros H. inversion H; subst. now split.
Qed.

Lemma table_constraints_spec (db : Database) :
  table_constraints db = true <->
  NoDup (map models.book_id db) /\ Forall (fun r => models.table_args r = true) db.
Proof.
  unfold table_constraints.
  now rewrite andb_true_iff, primary_key_NoDup, forallb_forall, Forall_forall.
Qed.

Lemma map_book_id_replaced (id : Z) (row : models.Book) (db : Database) :
  models.book_id row = id ->
  map models.book_id (replaced id row db) = map models.book_id db.
Proof.
  intros Hid. unfold replaced. induction db as [|r rest IH]; simpl; [reflexivity|].
  rewrite IH. destruct (has_id id r) eqn:E; [|reflexivity].
  apply has_id_true in E. congruence.
Qed.

Lemma NoDup_book_id_filter (f : models.Book -> bool) (db : Database) :
  NoDup (map models.book_id db) -> NoDup (map models.book_id (filter f db)).
Proof.
  induction db as [|r rest IH]; simpl; intros H; [constructor|].
  inversion H as [|x l Hn Hd]; subst. destruct (f r); simpl; [|now apply IH].
  constructor; [|now apply IH].
  intros Hin. apply Hn. apply in_map_iff in Hin. destruct Hin as [r' [Hr' Hin]].
  apply filter_In in Hin. apply in_map_iff. exists r'. tauto.
Qed.

Lemma NoDup_book_id_app_new (row : models.Book) (db : Database) :
  query_first (models.book_id row) db = None ->
  NoDup (map models.book_id db) -> NoDup (map models.book_id (db ++ [row])).
Proof.
  intros Hn Hd. rewrite map_app. apply NoDup_app; [assumption|repeat constructor; intros []|].
  intros a Ha [Hb|[]]. subst a. now apply query_first_None in Hn.
Qed.

Section RowInvariant.

(** A property of rows that the written rows have. *)
Variable P : models.Book -> Prop.
Hypothesis P_new : forall id t a,
  schemas.six_digits id = true -> P (models.mkBook id t a false None None).
Hypothesis P_borrowed : forall old card now,
  P old -> models.table_args (borrowed_row old card now) = true ->
  P (borrowed_row old card now).
Hypothesis P_returned : forall old,
  P old -> models.table_args (returned_row old) = true -> P (returned_row old).

Lemma Forall_replaced (id : Z) (row : models.Book) (db : Database) :
  P row -> Forall P db -> Forall P (replaced id row db).
Proof.
  intros Hrow Hdb. unfold replaced. induction Hdb as [|r rest Hr Hrest IH]; simpl.
  - constructor.
  - constructor; [|exact IH]. now destruct (has_id id r).
Qed.

Lemma Forall_deleted (f : models.Book -> bool) (db : Database) :
  Forall P db -> Forall P (filter f db).
Proof.
  rewrite !Forall_forall. intros H r Hin. apply filter_In in Hin. now apply H.
Qed.

Lemma POST_books_rows (id : Z) (t a : string) (db : Database) :
  Forall P db -> Forall P (snd (POST_books id t a db)).
Proof.
  intros Hdb.
  destruct (POST_books_written id t a db) as [->|[Hv [_ [_ ->]]]]; [exact Hdb|].
  simpl. apply Forall_app. split; [exact Hdb|]. constructor; [|constructor].
  now apply P_new.
Qed.

Lemma DELETE_books_rows (id : Z) (db : Database) :
  Forall P db -> Forall P (snd (DELETE_books id db)).
Proof.
  intros Hdb. unfold DELETE_books. destruct (query_first id db) as [old|] eqn:Hq.
  - rewrite (delete_book_present id db old Hq). simpl. now apply Forall_deleted.
  - now rewrite delete_book_absent.
Qed.

Lemma borrow_book_rows (id : Z) (rq : schemas.BorrowRequest) (now : datetime)
    (db : Database) :
  Forall P db -> Forall P (snd (borrow_book id rq now db)).
Proof.
  intros Hdb. destruct (query_first id db) as [old|] eqn:Hq.
  - destruct (models.is_borrowed old) eqn:Hb.
    + now rewrite (borrow_book_taken id rq now db old).
    + destruct (models.table_args
                  (borrowed_row old (schemas.borrower_card_number rq) now)) eqn:Hok.
      * rewrite (borrow_book_free id rq now db old) by assumption. simpl.
        apply Forall_replaced; [|exact Hdb]. apply P_borrowed; [|exact Hok].
        rewrite Forall_forall in Hdb. apply Hdb. now apply (query_first_Some id).
      * now rewrite (borrow_book_refused id rq now db old).
  - now rewrite borrow_book_absent.
Qed.

Lemma PATCH_borrow_rows (id card : Z) (now : datetime) (db : Database) :
  Forall P db -> Forall P (snd (PATCH_borrow id card now db)).
Proof.
  intros Hdb. unfold PATCH_borrow.
  destruct (schemas.validate_BorrowRequest card); [|exact Hdb].
  now apply borrow_book_rows.
Qed.

Lemma PATCH_return_rows (id : Z) (db : Database) :
  Forall P db -> Forall P (snd (PATCH_return id db)).
Proof.
  intros Hdb. unfold PATCH_return, return_book.
  destruct (query_first id db) as [old|] eqn:Hq; [|exact Hdb].
  destruct (models.is_borrowed old); simpl; [|exact Hdb].
  unfold update_commit. fold (returned_row old).
  destruct (models.table_args (returned_row old)) eqn:Hok; [|exact Hdb].
  assert (Forall P (replaced (models.book_id (returned_row old)) (returned_row old) db)) as H.
  { apply Forall_replaced; [|exact Hdb]. apply P_returned; [|exact Hok].
    rewrite Forall_forall in Hdb. apply Hdb. now apply (query_first_Some id). }
  unfold replaced in H. now destruct (refresh (returned_row old) _).
Qed.

Lemma serve_rows (rq : Request) (db : Database) :
  Forall P db -> Forall P (serve rq db).
Proof.
  destruct rq; simpl.
  - apply POST_books_rows.
  - trivial.
  - apply DELETE_books_rows.
  - apply PATCH_borrow_rows.
  - apply PATCH_return_rows.
Qed.

Lemma serve_all_rows (rqs : list Request) (db : Database) :
  Forall P db -> Forall P (serve_all rqs db).
Proof.
  revert db. unfold serve_all. induction rqs as [|rq rest IH]; simpl; intros db H.
  - exact H.
  - apply IH. now apply serve_rows.
Qed.

End RowInvariant.

Lemma borrow_book_keys (id : Z) (rq : schemas.BorrowRequest) (now : datetime)
    (db : Database) :
  map models.book_id (snd (borrow_book id rq now db)) = map models.book_id db.
Proof.
  destruct (query_first id db) as [old|] eqn:Hq.
  - destruct (models.is_borrowed old) eqn:Hb.
    + now rewrite (borrow_book_taken id rq now db old).
    + destruct (models.table_args
                  (borrowed_row old (schemas.borrower_card_number rq) now)) eqn:Hok.
      * rewrite (borrow_book_free id rq now db old) by assumption. simpl.
        apply map_book_id_replaced. exact (proj2 (query_first_Some id db old Hq)).
      * now rewrite (borrow_book_refused id rq now db old).
  - now rewrite borrow_book_absent.
Qed.

Lemma return_book_keys (id : Z) (db : Database) :
  map models.book_id (snd (return_book id db)) = map models.book_id db.
Proof.
  unfold return_book.
  destruct (query_first id db) as [old|] eqn:Hq; [|reflexivity].
  destruct (models.is_borrowed old); simpl; [|reflexivity].
  unfold update_commit. fold (returned_row old).
  destruct (models.table_args (returned_row old)); [|reflexivity].
  fold (replaced (models.book_id (returned_row old)) (returned_row old) db).
  destruct (refresh (returned_row old) _); simpl; now apply map_book_id_replaced.
Qed.

Lemma serve_keys (rq : Request) (db : Database) :
  NoDup (map models.book_id db) -> NoDup (map models.book_id (serve rq db)).
Proof.
  intros Hd. destruct rq as [id t a| |id|id card now|id]; simpl.
  - destruct (POST_books_written id t a db) as [->|[_ [_ [Hq ->]]]]; [exact Hd|].
    simpl. now apply NoDup_book_id_app_new.
  - exact Hd.
  - unfold DELETE_books. destruct (query_first id db) as [old|] eqn:Hq.
    + rewrite (delete_book_present id db old Hq). simpl. now apply NoDup_book_id_filter.
    + now rewrite delete_book_absent.
  - unfold PATCH_borrow. destruct (schemas.validate_BorrowRequest card); [|exact Hd].
    now rewrite borrow_book_keys.
  - unfold PATCH_return. now rewrite return_book_keys.
Qed.

Lemma serve_constraints (rq : Request) (db : Database) :
  table_constraints db = true -> table_constraints (serve rq db) = true.
Proof.
  rewrite !table_constraints_spec. intros [Hk Hr]. split.
  - now apply serve_keys.
  - apply serve_rows; try assumption.
    + intros id t a Hv. now apply table_args_new.
    + intros old card now _ H. exact H.
    + intros old _ H. exact H.
Qed.

Lemma serve_all_constraints (rqs : list Request) (db : Database) :
  table_constraints db = true -> table_constraints (serve_all rqs db) = true.
Proof.
  revert db. unfold serve_all. induction rqs as [|rq rest IH]; simpl; intros db H.
  - exact H.
  - apply IH. now apply serve_constraints.
Qed.

Lemma stored_book_id_6_digits (db : Database) (id : Z) (r : models.Book) :
  table_constraints db = true -> query_first id db = Some r ->
  schemas.six_digits id = true.
Proof.
  intros Hc Hq. apply table_constraints_spec in Hc. destruct Hc as [_ Hr].
  apply query_first_Some in Hq. destruct Hq as [Hin Hid].
  rewrite Forall_forall in Hr. apply Hr, table_args_book_id in Hin.
  unfold models.book_id_6_digits in Hin. now rewrite Hid in Hin.
Qed.

Lemma out_of_range_absent (db : Database) (id : Z) :
  table_constraints db = true -> schemas.six_digits id = false ->
  query_first id db = None.
Proof.
  intros Hc Hv. destruct (query_first id db) as [r|] eqn:Hq; [|reflexivity].
  rewrite (stored_book_id_6_digits db id r Hc Hq) in Hv. discriminate.
Qed.

Lemma coherent_new (id : Z) (t a : string) :
  coherent (models.mkBook id t a false None None).
Proof. unfold coherent. simpl. intuition congruence. Qed.

Lemma coherent_borrowed (old : models.Book) (card : Z) (now : datetime) :
  coherent (borrowed_row old card now).
Proof. unfold coherent. simpl. intuition congruence. Qed.

Lemma coherent_returned (old : models.Book) : coherent (returned_row old).
Proof. unfold coherent. simpl. intuition congruence. Qed.

(** ** The borrowing contract *)

(** C1: on a table kept by the database, [borrow_book] checks the card
    number (a number outside 100000..999999 is a validation error and nothing
    is written); with a 6-digit card number it fails with NotFound when no
    book has the given [book_id], fails with AlreadyBorrowed when that book
    has [is_borrowed] true, and otherwise writes [is_borrowed = true],
    [borrowed_date = now] and [borrower_card_number = card] on that book,
    which it returns, leaving every other book as it was. *)
Theorem borrow_book_contract (db : Database) (book_id card : Z) (now : datetime) :
  table_constraints db = true ->
  (schemas.six_digits card = false ->
     PATCH_borrow book_id card now db = (Raise ValidationError, db)) /\
  (schemas.six_digits card = true ->
     match query_first book_id db with
     | None => PATCH_borrow book_id card now db = (Raise NotFound, db)
     | Some old =>
         if models.is_borrowed old
         then PATCH_borrow book_id card now db = (Raise AlreadyBorrowed, db)
         else
           let lent :=
             models.mkBook (models.book_id old) (models.title old) (models.author old)
                           true (Some now) (Some card) in
           PATCH_borrow book_id card now db = (Return lent, replaced book_id lent db) /\
           query_first book_id (replaced book_id lent db) = Some lent /\
           (forall other, other <> book_id ->
              query_first other (replaced book_id lent db) = query_first other db)
     end).
Proof.
  intros Hc. unfold PATCH_borrow, schemas.validate_BorrowRequest. split; intros Hv; rewrite Hv.
  - reflexivity.
  - destruct (query_first book_id db) as [old|] eqn:Hq.
    + destruct (models.is_borrowed old) eqn:Hb.
      * now apply (borrow_book_taken book_id _ now db old).
      * cbv zeta. fold (borrowed_row old card now).
        destruct (query_first_Some _ _ _ Hq) as [_ Hid].
        split; [|split].
        -- apply (borrow_book_free book_id (schemas.mkBorrowRequest card) now db old Hq Hb).
           simpl. apply table_args_borrowed; [|exact Hv].
           pose proof (stored_book_id_6_digits db book_id old Hc Hq) as H6.
           unfold models.book_id_6_digits. now rewrite Hid.
        -- now apply (query_first_replaced book_id db _ old).
        -- intros other Hne. now apply query_first_replaced_other.
    + now apply borrow_book_absent.
Qed.

Lemma borrow_book_contract_witness :
  table_constraints [orwell] = true /\ schemas.six_digits 654321 = true /\
  PATCH_borrow 123456 654321 1700000000 [orwell] = (Return orwell_lent, [orwell_lent]).
Proof.
  split; [reflexivity|split; [reflexivity|]].
  destruct (borrow_book_contract [orwell] 123456 654321 1700000000 eq_refl) as [_ H].
  specialize (H eq_refl). simpl in H. destruct H as [H _]. exact H.
Defined.

(** C2: a transition from the wrong state is refused and nothing is written.
    Borrowing a book whose [is_borrowed] is true gives AlreadyBorrowed and the
    table is the one before the call; returning a book whose [is_borrowed] is
    false gives NotBorrowed and the table is the one before the call. *)
Theorem wrong_state_rejected (db : Database) (book_id : Z) (old : models.Book) :
  query_first book_id db = Some old ->
  (models.is_borrowed old = true ->
     (forall borrow_request now,
        borrow_book book_id borrow_request now db = (Raise AlreadyBorrowed, db)) /\
     (forall card now, schemas.six_digits card = true ->
        PATCH_borrow book_id card now db = (Raise AlreadyBorrowed, db))) /\
  (models.is_borrowed old = false ->
     return_book book_id db = (Raise NotBorrowed, db) /\
     PATCH_return book_id db = (Raise NotBorrowed, db)).
Proof.
  intros Hq. split; intros Hb.
  - split.
    + intros rq now. now apply (borrow_book_taken book_id rq now db old).
    + intros card now Hv. unfold PATCH_borrow, schemas.validate_BorrowRequest.
      rewrite Hv. now apply (borrow_book_taken book_id _ now db old).
  - unfold PATCH_return. split; now apply (return_book_free book_id db old).
Qed.

Lemma wrong_state_rejected_witness :
  query_first 123456 [orwell_lent] = Some orwell_lent /\
  models.is_borrowed orwell_lent = true /\
  PATCH_borrow 123456 111222 1700000001 [orwell_lent] = (Raise AlreadyBorrowed, [orwell_lent]).
Proof.
  split; [reflexivity|split; [reflexivity|]].
  destruct (wrong_state_rejected [orwell_lent] 123456 orwell_lent eq_refl) as [H _].
  destruct (H eq_refl) as [_ H']. apply H'. reflexivity.
Defined.

(** C3: after any sequence of requests (create, list, delete, borrow, return)
    served from the empty table, every stored book has [is_borrowed] true if
    and only if [borrowed_date] is set, if and only if [borrower_card_number]
    is set. *)
Theorem borrow_state_coherence (rqs : list Request) (r : models.Book) :
  In r (serve_all rqs []) ->
  (models.is_borrowed r = true <-> models.borrowed_date r <> None) /\
  (models.borrowed_date r <> None <-> models.borrower_card_number r <> None).
Proof.
  intros Hin. change (coherent r).
  assert (Forall coherent (serve_all rqs [])) as H.
  { apply serve_all_rows.
    - intros id t a _. apply coherent_new.
    - intros old card now _ _. apply coherent_borrowed.
    - intros old _ _. apply coherent_returned.
    - constructor. }
  rewrite Forall_forall in H. now apply H.
Qed.

Lemma borrow_state_coherence_witness :
  In orwell_lent
     (serve_all [Create 123456 "1984" "Orwell"; Borrow 123456 654321 1700000000] []) /\
  (models.is_borrowed orwell_lent = true <-> models.borrowed_date orwell_lent <> None) /\
  (models.borrowed_date orwell_lent <> None <->
   models.borrower_card_number orwell_lent <> None).
Proof.
  assert (In orwell_lent
            (serve_all [Create 123456 "1984" "Orwell"; Borrow 123456 654321 1700000000] []))
    as Hin by (simpl; left; reflexivity).
  split; [exact Hin|].
  exact (borrow_state_coherence _ orwell_lent Hin).
Defined.

(** ** Creation, identity and deletion *)




(** C5: for a book just created by [create_book] and a 6-digit card number,
    borrowing it and then returning it both succeed, and the stored record is
    again the one returned by the creation: same [book_id], [title] and
    [author], [is_borrowed = false], no [borrowed_date] and no
    [borrower_card_number].  The whole table is the one after the creation. *)
Theorem borrow_return_round_trip
    (db db1 : Database) (book_id card : Z) (title author : string)
    (now : datetime) (created : models.Book) :
  POST_books book_id title author db = (Return created, db1) ->
  schemas.six_digits card = true ->
  exists lent db2,
    PATCH_borrow book_id card now db1 = (Return lent, db2) /\
    PATCH_return book_id db2 = (Return created, db1) /\
    query_first book_id db1 = Some created /\
    created = models.mkBook book_id title author false None None /\
    lent = models.mkBook book_id title author true (Some now) (Some card).
Proof.
  intros Hcreate Hcard.
  unfold POST_books, schemas.validate_BookCreate in Hcreate.
  destruct (schemas.six_digits book_id) eqn:Hv; [|discriminate].
  destruct (query_first book_id db) as [old|] eqn:Hq.
  - rewrite (create_book_taken _ db old) in Hcreate by exact Hq. discriminate.
  - destruct (storable_text title && storable_text author) eqn:Hs;
      [|rewrite create_book_unstorable in Hcreate by assumption; discriminate].
    rewrite create_book_fresh in Hcreate by assumption.
    unfold new_Book in Hcreate. simpl in Hcreate.
    injection Hcreate as Hc Hdb. subst created db1.
    set (fresh := models.mkBook book_id title author false None None).
    assert (query_first book_id (db ++ [fresh]) = Some fresh) as Hq1
      by now apply query_first_app_new.
    assert (forall row, models.book_id row = book_id ->
              replaced book_id row (db ++ [fresh]) = db ++ [row]) as Hrep.
    { intros row Hrow. unfold replaced. rewrite map_app. simpl.
      assert (has_id book_id fresh = true) as -> by now apply has_id_true.
      f_equal. rewrite <- (map_id db) at 2. apply map_ext_in.
      intros r Hin.
      assert (has_id book_id r = false) as ->; [|reflexivity].
      apply has_id_false. intros Heq. apply query_first_None in Hq. apply Hq.
      apply in_map_iff. now exists r. }
    exists (borrowed_row fresh card now), (db ++ [borrowed_row fresh card now]).
    split; [|split; [|split; [|split]]].
    + unfold PATCH_borrow, schemas.validate_BorrowRequest. rewrite Hcard.
      rewrite (borrow_book_free book_id _ now _ fresh Hq1 eq_refl).
      * simpl. now rewrite Hrep.
      * simpl. apply table_args_borrowed; [exact Hv|exact Hcard].
    + unfold PATCH_return.
      assert (query_first book_id (db ++ [borrowed_row fresh card now])
              = Some (borrowed_row fresh card now)) as Hq2
        by now apply query_first_app_new.
      rewrite (return_book_taken book_id _ _ Hq2 eq_refl Hv).
      change (returned_row (borrowed_row fresh card now)) with fresh.
      f_equal. rewrite <- (Hrep (borrowed_row fresh card now) eq_refl).
      unfold replaced. rewrite map_map. rewrite <- (map_id (db ++ [fresh])) at 2.
      apply map_ext_in. intros r Hin.
      destruct (has_id book_id r) eqn:E.
      * simpl. change (has_id book_id (borrowed_row fresh card now))
          with (has_id book_id fresh).
        assert (has_id book_id fresh = true) as -> by now apply has_id_true.
        apply in_app_iff in Hin. destruct Hin as [Hin|[Hin|[]]]; [|now subst r].
        exfalso. apply has_id_true in E. apply query_first_None in Hq. apply Hq.
        apply in_map_iff. now exists r.
      * now rewrite E.
    + exact Hq1.
    + reflexivity.
    + reflexivity.
Qed.

Lemma borrow_return_round_trip_witness :
  POST_books 123456 "1984" "Orwell" [] = (Return orwell, [orwell]) /\
  schemas.six_digits 654321 = true /\
  exists lent db2,
    PATCH_borrow 123456 654321 1700000000 [orwell] = (Return lent, db2) /\
    PATCH_return 123456 db2 = (Return orwell, [orwell]) /\
    query_first 123456 [orwell] = Some orwell /\
    orwell = models.mkBook 123456 "1984" "Orwell" false None None /\
    lent = models.mkBook 123456 "1984" "Orwell" true (Some 1700000000) (Some 654321).
Proof.
  split; [reflexivity|split; [reflexivity|]].
  exact (borrow_return_round_trip [] [orwell] 123456 654321 "1984" "Orwell"
           1700000000 orwell eq_refl eq_refl).
Defined.

(** C7: [delete_book] fails with NotFound when no book has the given
    [book_id]; otherwise it removes that book and succeeds, whatever the
    book's [is_borrowed] (a borrowed book is deleted like any other), a query
    for that [book_id] then finds nothing, and the other books are as they
    were. *)
Theorem delete_book_contract (db : Database) (book_id : Z) :
  match query_first book_id db with
  | None => delete_book book_id db = (Raise NotFound, db)
  | Some old =>
      let db' := filter (fun r => negb (has_id book_id r)) db in
      delete_book book_id db = (Return tt, db') /\
      (models.is_borrowed old = true -> fst (delete_book book_id db) = Return tt) /\
      query_first book_id db' = None /\
      (forall other, other <> book_id -> query_first other db' = query_first other db)
  end.
Proof.
  destruct (query_first book_id db) as [old|] eqn:Hq.
  - cbv zeta. rewrite (delete_book_present book_id db old Hq).
    split; [reflexivity|]. split; [reflexivity|]. split.
    + apply query_first_deleted.
    + intros other Hne. now apply query_first_deleted_other.
  - now apply delete_book_absent.
Qed.

Lemma delete_book_contract_witness :
  models.is_borrowed orwell_lent = true /\
  delete_book 123456 [orwell_lent] = (Return tt, []) /\
  query_first 123456 (snd (delete_book 123456 [orwell_lent])) = None /\
  delete_book 123456 [] = (Raise NotFound, []).
Proof.
  split; [reflexivity|].
  pose proof (delete_book_contract [orwell_lent] 123456) as H. simpl in H.
  destruct H as [H1 [_ [H2 _]]].
  split; [exact H1|]. split; [rewrite H1; exact H2|].
  exact (delete_book_contract [] 123456).
Defined.

(** ** Range validation *)

(** C6, as the code has it: a [book_id] outside 100000..999999 given to
    [create_book], and a [borrower_card_number] outside that range given to
    [borrow_book], are rejected with a validation error and the table is the
    one before the call.  A [book_id] outside the range given to
    [delete_book], [borrow_book] or [return_book] is not validated: on a table
    kept by the database nothing is written either, and the answer is NotFound
    (for [borrow_book], when the card number is a 6-digit one). *)
Theorem range_validation_before_mutation (db : Database) (n : Z) :
  schemas.six_digits n = false ->
  (forall title author,
     POST_books n title author db = (Raise ValidationError, db)) /\
  (forall book_id now,
     PATCH_borrow book_id n now db = (Raise ValidationError, db)) /\
  (table_constraints db = true ->
     DELETE_books n db = (Raise NotFound, db) /\
     PATCH_return n db = (Raise NotFound, db) /\
     (forall card now,
        snd (PATCH_borrow n card now db) = db /\
        (schemas.six_digits card = true ->
         PATCH_borrow n card now db = (Raise NotFound, db)))).
Proof.
  intros Hn. split; [|split].
  - intros t a. unfold POST_books, schemas.validate_BookCreate. now rewrite Hn.
  - intros id now. unfold PATCH_borrow, schemas.validate_BorrowRequest. now rewrite Hn.
  - intros Hc. pose proof (out_of_range_absent db n Hc Hn) as Hq.
    split; [now apply delete_book_absent|]. split; [now apply return_book_absent|].
    intros card now. unfold PATCH_borrow, schemas.validate_BorrowRequest.
    destruct (schemas.six_digits card).
    + rewrite borrow_book_absent by exact Hq. now split.
    + split; [reflexivity|discriminate].
Qed.

Lemma range_validation_before_mutation_witness :
  schemas.six_digits 99999 = false /\
  POST_books 99999 "1984" "Orwell" [orwell] = (Raise ValidationError, [orwell]) /\
  PATCH_borrow 123456 99999 1700000000 [orwell] = (Raise ValidationError, [orwell]) /\
  DELETE_books 99999 [orwell] = (Raise NotFound, [orwell]).
Proof.
  split; [reflexivity|].
  destruct (range_validation_before_mutation [orwell] 99999 eq_refl) as [H1 [H2 H3]].
  split; [apply H1|]. split; [apply H2|]. exact (proj1 (H3 eq_refl)).
Defined.

(** C6 as stated fails: [delete_book], [borrow_book] and [return_book] with
    the out-of-range [book_id] 42 are answered NotFound, which is not the
    validation error. *)
Lemma range_validation_counterexample :
  schemas.six_digits 42 = false /\
  DELETE_books 42 [] = (Raise NotFound, []) /\
  PATCH_borrow 42 654321 1700000000 [] = (Raise NotFound, []) /\
  PATCH_return 42 [] = (Raise NotFound, []) /\
  NotFound <> ValidationError.
Proof. repeat split; try reflexivity. discriminate. Qed.

(** C10: a [book_id] outside 100000..999999 is never stored, so after any
    sequence of requests served from the empty table [delete_book],
    [borrow_book] and [return_book] with such a [book_id] answer NotFound (not
    a validation error) and the table is the one before the call. *)
Theorem out_of_range_id_not_found (rqs : list Request) (book_id : Z) :
  schemas.six_digits book_id = false ->
  let db := serve_all rqs [] in
  (forall r, In r db -> models.book_id r <> book_id) /\
  delete_book book_id db = (Raise NotFound, db) /\
  (forall borrow_request now,
     borrow_book book_id borrow_request now db = (Raise NotFound, db)) /\
  (forall card now, schemas.six_digits card = true ->
     PATCH_borrow book_id card now db = (Raise NotFound, db)) /\
  return_book book_id db = (Raise NotFound, db) /\
  NotFound <> ValidationError.
Proof.
  intros Hv db.
  assert (table_constraints db = true) as Hc by now apply serve_all_constraints.
  pose proof (out_of_range_absent db book_id Hc Hv) as Hq.
  split; [|split; [|split; [|split; [|split]]]].
  - intros r Hin Heq. apply query_first_None in Hq. apply Hq.
    apply in_map_iff. now exists r.
  - now apply delete_book_absent.
  - intros rq now. now apply borrow_book_absent.
  - intros card now Hcard. unfold PATCH_borrow, schemas.validate_BorrowRequest.
    rewrite Hcard. now apply borrow_book_absent.
  - now apply return_book_absent.
  - discriminate.
Qed.

Lemma out_of_range_id_not_found_witness :
  schemas.six_digits 1000000 = false /\
  delete_book 1000000 (serve_all [Create 123456 "1984" "Orwell"] []) =
    (Raise NotFound, serve_all [Create 123456 "1984" "Orwell"] []) /\
  return_book 1000000 (serve_all [Create 123456 "1984" "Orwell"] []) =
    (Raise NotFound, serve_all [Create 123456 "1984" "Orwell"] []).
Proof.
  split; [reflexivity|].
  destruct (out_of_range_id_not_found [Create 123456 "1984" "Orwell"] 1000000 eq_refl)
    as [_ [H1 [_ [_ [H2 _]]]]].
  split; [exact H1|exact H2].
Defined.

(** ** Text fields *)




(** ** The scenario of the specification

    Create, borrow, borrow again, return, return again, delete, and the book is
    gone. *)
Example scenario_create_borrow_return_delete :
  POST_books 123456 "1984" "Orwell" [] = (Return orwell, [orwell]) /\
  PATCH_borrow 123456 654321 1700000000 [orwell] = (Return orwell_lent, [orwell_lent]) /\
  PATCH_borrow 123456 111222 1700000001 [orwell_lent] = (Raise AlreadyBorrowed, [orwell_lent]) /\
  PATCH_return 123456 [orwell_lent] = (Return orwell, [orwell]) /\
  PATCH_return 123456 [orwell] = (Raise NotBorrowed, [orwell]) /\
  DELETE_books 123456 [orwell] = (Return tt, []) /\
  query_first 123456 [] = None.
Proof. repeat split. Qed.

(** ** Further properties of the handlers *)

Lemma stored_row_book_id_6_digits (db : Database) (id : Z) (old : models.Book) :
  table_constraints db = true -> query_first id db = Some old ->
  models.book_id_6_digits old = true.
Proof.
  intros Hc Hq. pose proof (stored_book_id_6_digits db id old Hc Hq) as H.
  destruct (query_first_Some _ _ _ Hq) as [_ Hid].
  unfold models.book_id_6_digits. rewrite Hid. exact H.
Qed.

Lemma only_row_of_key (db : Database) (id : Z) (old r : models.Book) :
  NoDup (map models.book_id db) -> query_first id db = Some old ->
  In r db -> models.book_id r = id -> r = old.
Proof.
  unfold query_first. induction db as [|x rest IH]; simpl; intros Hd Hq Hin Hid.
  - contradiction.
  - inversion Hd as [|k l Hn Hd']; subst k l.
    destruct (has_id id x) eqn:E.
    + injection Hq as Hx. subst x. destruct Hin as [Hin|Hin]; [now symmetry|].
      exfalso. apply Hn. apply has_id_true in E. rewrite E, <- Hid.
      now apply in_map.
    + destruct Hin as [Hin|Hin].
      * subst x. apply has_id_false in E. contradiction.
      * now apply IH.
Qed.

Lemma map_identity_replaced (db : Database) (id : Z) (old row : models.Book) :
  NoDup (map models.book_id db) -> query_first id db = Some old ->
  identity row = identity old ->
  map identity (replaced id row db) = map identity db.
Proof.
  intros Hd Hq Hrow. unfold replaced. rewrite map_map. apply map_ext_in.
  intros r Hin. destruct (has_id id r) eqn:E; [|reflexivity].
  apply has_id_true in E. rewrite (only_row_of_key db id old r Hd Hq Hin E).
  exact Hrow.
Qed.

(** On a table kept by the database, [return_book] fails with NotFound when
    no book has the given [book_id], fails with NotBorrowed when that book is
    not borrowed, and otherwise writes [is_borrowed = false] and clears
    [borrowed_date] and [borrower_card_number] on that book, which it returns
    with its [book_id], [title] and [author]; every other book is as it was. *)
Theorem return_book_contract (db : Database) (book_id : Z) :
  table_constraints db = true ->
  match query_first book_id db with
  | None => PATCH_return book_id db = (Raise NotFound, db)
  | Some old =>
      if models.is_borrowed old
      then
        let back :=
          models.mkBook (models.book_id old) (models.title old) (models.author old)
                        false None None in
        PATCH_return book_id db = (Return back, replaced book_id back db) /\
        query_first book_id (replaced book_id back db) = Some back /\
        (forall other, other <> book_id ->
           query_first other (replaced book_id back db) = query_first other db)
      else PATCH_return book_id db = (Raise NotBorrowed, db)
  end.
Proof.
  intros Hc. unfold PATCH_return.
  destruct (query_first book_id db) as [old|] eqn:Hq.
  - destruct (models.is_borrowed old) eqn:Hb.
    + cbv zeta. fold (returned_row old).
      destruct (query_first_Some _ _ _ Hq) as [_ Hid].
      split; [|split].
      * apply (return_book_taken book_id db old Hq Hb).
        now apply (stored_row_book_id_6_digits db book_id).
      * now apply (query_first_replaced book_id db _ old).
      * intros other Hne. now apply query_first_replaced_other.
    + now apply (return_book_free book_id db old).
  - now apply return_book_absent.
Qed.

Lemma return_book_contract_witness :
  table_constraints [orwell_lent] = true /\
  PATCH_return 123456 [orwell_lent] = (Return orwell, [orwell]).
Proof.
  split; [reflexivity|].
  pose proof (return_book_contract [orwell_lent] 123456 eq_refl) as H.
  simpl in H. exact (proj1 H).
Defined.

(** After any sequence of requests served from the empty table, every stored
    book has a [book_id] between 100000 and 999999, and a
    [borrower_card_number], when it has one, between 100000 and 999999. *)
Theorem stored_numbers_have_six_digits
    (rqs : list Request) (r : models.Book) :
  In r (serve_all rqs []) ->
  schemas.six_digits (models.book_id r) = true /\
  (forall card, models.borrower_card_number r = Some card ->
     schemas.six_digits card = true).
Proof.
  intros Hin.
  assert (table_constraints (serve_all rqs []) = true) as Hc
    by now apply serve_all_constraints.
  apply table_constraints_spec in Hc. destruct Hc as [_ Hr].
  rewrite Forall_forall in Hr. specialize (Hr r Hin).
  unfold models.table_args in Hr. apply andb_true_iff in Hr. destruct Hr as [H1 H2].
  split; [exact H1|].
  intros card Hcard. unfold models.borrower_card_number_6_digits in H2.
  now rewrite Hcard in H2.
Qed.

Lemma stored_numbers_have_six_digits_witness :
  In orwell_lent
     (serve_all [Create 123456 "1984" "Orwell"; Borrow 123456 654321 1700000000] []) /\
  schemas.six_digits (models.book_id orwell_lent) = true /\
  (forall card, models.borrower_card_number orwell_lent = Some card ->
     schemas.six_digits card = true).
Proof.
  assert (In orwell_lent
            (serve_all [Create 123456 "1984" "Orwell"; Borrow 123456 654321 1700000000] []))
    as Hin by (simpl; left; reflexivity).
  split; [exact Hin|].
  exact (stored_numbers_have_six_digits _ orwell_lent Hin).
Defined.



Lemma identity_kept_in_place (db : Database) (book_id card : Z) (now : datetime) :
  table_constraints db = true ->
  map identity (snd (PATCH_borrow book_id card now db)) = map identity db /\
  map identity (snd (PATCH_return book_id db)) = map identity db.
Proof.
  intros Hc. pose proof Hc as Hc'. apply table_constraints_spec in Hc'.
  destruct Hc' as [Hd _]. split.
  - unfold PATCH_borrow. destruct (schemas.validate_BorrowRequest card) as [rq|];
      [|reflexivity].
    destruct (query_first book_id db) as [old|] eqn:Hq.
    + destruct (models.is_borrowed old) eqn:Hb.
      * now rewrite (borrow_book_taken book_id rq now db old).
      * destruct (models.table_args
                    (borrowed_row old (schemas.borrower_card_number rq) now)) eqn:Hok.
        -- rewrite (borrow_book_free book_id rq now db old) by assumption. simpl.
           now apply (map_identity_replaced db book_id old).
        -- now rewrite (borrow_book_refused book_id rq now db old).
    + now rewrite borrow_book_absent.
  - unfold PATCH_return. destruct (query_first book_id db) as [old|] eqn:Hq.
    + destruct (models.is_borrowed old) eqn:Hb.
      * rewrite (return_book_taken book_id db old Hq Hb).
        -- simpl. now apply (map_identity_replaced db book_id old).
        -- now apply (stored_row_book_id_6_digits db book_id).
      * now rewrite (return_book_free book_id db old).
    + now rewrite return_book_absent.
Qed.

(** On a table kept by the database, borrowing and returning never change the
    [book_id], the [title] or the [author] of a stored book, nor the number of
    the stored books, whatever the answer: the stored books have, up to the
    order in which they are listed, the same [book_id], [title] and [author]
    as before. *)
Theorem borrow_and_return_keep_identity
    (db : Database) (book_id card : Z) (now : datetime) :
  table_constraints db = true ->
  Permutation (map identity (snd (PATCH_borrow book_id card now db)))
              (map identity db) /\
  Permutation (map identity (snd (PATCH_return book_id db))) (map identity db).
Proof.
  intros Hc. destruct (identity_kept_in_place db book_id card now Hc) as [-> ->].
  split; apply Permutation_refl.
Qed.

Lemma borrow_and_return_keep_identity_witness :
  table_constraints [orwell] = true /\
  Permutation (map identity (snd (PATCH_borrow 123456 654321 1700000000 [orwell])))
              (map identity [orwell]) /\
  Permutation (map identity (snd (PATCH_return 123456 [orwell]))) (map identity [orwell]).
Proof.
  split; [reflexivity|].
  exact (borrow_and_return_keep_identity [orwell] 123456 654321 1700000000 eq_refl).
Defined.

(** ** Deleting, listing and creating again *)

Lemma filter_absent (id : Z) (db : Database) :
  query_first id db = None -> filter (fun r => negb (has_id id r)) db = db.
Proof.
  unfold query_first. induction db as [|r rest IH]; simpl; [reflexivity|].
  destruct (has_id id r); [discriminate|]. intros H. simpl. now rewrite IH.
Qed.

Lemma DELETE_books_table (id : Z) (db : Database) :
  snd (DELETE_books id db) = filter (fun r => negb (has_id id r)) db.
Proof.
  unfold DELETE_books. destruct (query_first id db) as [old|] eqn:Hq.
  - now rewrite (delete_book_present id db old Hq).
  - rewrite delete_book_absent by exact Hq. simpl. now rewrite filter_absent.
Qed.

Lemma clear_loop_empties (books : list models.Book) (d : Database) :
  (forall r, In r d -> In (models.book_id r) (map models.book_id books)) ->
  fold_left (fun d book => snd (DELETE_books (models.book_id book) d)) books d = [].
Proof.
  revert d. induction books as [|b rest IH]; simpl; intros d H.
  - destruct d as [|r d']; [reflexivity|]. destruct (H r). now left.
  - apply IH. intros r Hin. rewrite DELETE_books_table in Hin.
    apply filter_In in Hin. destruct Hin as [Hin Hneq].
    destruct (H r Hin) as [Heq|Hrest]; [|exact Hrest].
    apply negb_true_iff, has_id_false in Hneq. now symmetry in Heq.
Qed.

(** [clear_all_books] leaves the table empty, whatever was stored: listing
    the books once and deleting each listed [book_id] removes every row, and
    the listing that follows is the empty list. *)
Theorem clear_all_books_empties (db : Database) :
  clear_all_books db = [] /\
  GET_books (clear_all_books db) = (Return [], []).
Proof.
  assert (clear_all_books db = []) as H.
  { unfold clear_all_books, GET_books, get_all_books, query_all. simpl.
    apply clear_loop_empties. intros r Hin. now apply in_map. }
  split; [exact H|]. now rewrite H.
Qed.

(** Creating twice with one 6-digit [book_id], the first time with a [title]
    and [author] without the character NUL: whatever the table, and whether
    the first creation stored the book or found the [book_id] taken, the second
    one is refused with AlreadyExists (status 400) and writes nothing, also
    when its [title] and [author] differ; and after the first creation the
    table is not empty. *)
Theorem second_create_already_exists
    (db : Database) (book_id : Z) (title author title' author' : string) :
  schemas.six_digits book_id = true ->
  storable_text title && storable_text author = true ->
  let db1 := snd (POST_books book_id title author db) in
  POST_books book_id title' author' db1 = (Raise AlreadyExists, db1) /\
  status 201 (fst (POST_books book_id title' author' db1)) = 400 /\
  (exists first rest, fst (GET_books db1) = Return (first :: rest)).
Proof.
  intros Hv Hs db1.
  assert (exists old, query_first book_id db1 = Some old) as [old Hold].
  { unfold db1, POST_books, schemas.validate_BookCreate. rewrite Hv.
    destruct (query_first book_id db) as [old|] eqn:Hq.
    - rewrite (create_book_taken _ db old) by exact Hq. now exists old.
    - rewrite create_book_fresh by assumption. simpl.
      eexists. now apply query_first_app_new. }
  assert (POST_books book_id title' author' db1 = (Raise AlreadyExists, db1)) as H.
  { unfold POST_books, schemas.validate_BookCreate. rewrite Hv.
    now apply (create_book_taken _ db1 old). }
  split; [exact H|]. split; [now rewrite H|].
  unfold GET_books, get_all_books, query_all. simpl.
  destruct db1 as [|first rest]; [discriminate|]. now exists first, rest.
Qed.

Lemma second_create_already_exists_witness :
  schemas.six_digits 123456 = true /\
  storable_text "1984" && storable_text "Orwell" = true /\
  POST_books 123456 "Animal Farm" "Orwell"
             (snd (POST_books 123456 "1984" "Orwell" [])) =
    (Raise AlreadyExists, snd (POST_books 123456 "1984" "Orwell" [])).
Proof.
  split; [reflexivity|]. split; [reflexivity|].
  exact (proj1 (second_create_already_exists [] 123456 "1984" "Orwell"
                  "Animal Farm" "Orwell" eq_refl eq_refl)).
Defined.

(** After [delete_book], whatever it answered, no listed book has the given
    [book_id], and deleting that [book_id] again answers NotFound (status 404)
    and writes nothing. *)
Theorem delete_book_then_absent (db : Database) (book_id : Z) :
  let db1 := snd (DELETE_books book_id db) in
  (exists books, GET_books db1 = (Return books, db1) /\
     forall r, In r books -> models.book_id r <> book_id) /\
  DELETE_books book_id db1 = (Raise NotFound, db1) /\
  status 204 (fst (DELETE_books book_id db1)) = 404.
Proof.
  intros db1.
  assert (query_first book_id db1 = None) as Hq
    by (unfold db1; rewrite DELETE_books_table; apply query_first_deleted).
  assert (DELETE_books book_id db1 = (Raise NotFound, db1)) as H
    by now apply delete_book_absent.
  split; [|split; [exact H|now rewrite H]].
  exists db1. split; [reflexivity|].
  intros r Hin Heq. apply query_first_None in Hq. apply Hq.
  apply in_map_iff. now exists r.
Qed.

Lemma length_deleted (db : Database) (id : Z) (old : models.Book) :
  NoDup (map models.book_id db) -> query_first id db = Some old ->
  List.length db = S (List.length (filter (fun r => negb (has_id id r)) db)).
Proof.
  unfold query_first. induction db as [|x rest IH]; simpl; intros Hd Hq.
  - discriminate.
  - inversion Hd as [|k l Hn Hd']; subst k l.
    destruct (has_id id x) eqn:E; simpl.
    + apply has_id_true in E. rewrite E in Hn. apply query_first_None in Hn.
      now rewrite filter_absent.
    + f_equal. now apply IH.
Qed.

(** On a table kept by the database, a successful [delete_book] removes
    exactly one row, the book found with the given [book_id]: the stored books
    are one fewer, and a book is stored afterwards if and only if it was
    stored before and is not that book. *)
Theorem delete_book_removes_one_row
    (db : Database) (book_id : Z) (old : models.Book) :
  table_constraints db = true ->
  query_first book_id db = Some old ->
  let db1 := snd (delete_book book_id db) in
  fst (delete_book book_id db) = Return tt /\
  List.length db = S (List.length db1) /\
  (forall r, In r db1 <-> In r db /\ r <> old).
Proof.
  intros Hc Hq db1. unfold db1. rewrite (delete_book_present book_id db old Hq). simpl.
  apply table_constraints_spec in Hc. destruct Hc as [Hd _].
  split; [reflexivity|]. split; [now apply (length_deleted db book_id old)|].
  intros r. rewrite filter_In, negb_true_iff, has_id_false. split.
  - intros [Hin Hne]. split; [exact Hin|]. intros ->.
    now destruct (query_first_Some _ _ _ Hq).
  - intros [Hin Hne]. split; [exact Hin|]. intros Hid. apply Hne.
    now apply (only_row_of_key db book_id).
Qed.

Lemma delete_book_removes_one_row_witness :
  table_constraints [orwell_lent] = true /\
  query_first 123456 [orwell_lent] = Some orwell_lent /\
  List.length [orwell_lent] = S (List.length (snd (delete_book 123456 [orwell_lent]))).
Proof.
  split; [reflexivity|split; [reflexivity|]].
  destruct (delete_book_removes_one_row [orwell_lent] 123456 orwell_lent eq_refl eq_refl)
    as [_ [H _]].
  exact H.
Defined.

(** On a table kept by the database, [get_all_books] succeeds, writes nothing
    and lists exactly the books a query by [book_id] finds: a book is listed if
    and only if the query for its [book_id] returns that very book. *)
Theorem get_all_books_agrees_with_query (db : Database) :
  table_constraints db = true ->
  exists books,
    get_all_books db = (Return books, db) /\
    (forall r, In r books <-> query_first (models.book_id r) db = Some r).
Proof.
  intros Hc. apply table_constraints_spec in Hc. destruct Hc as [Hd _].
  exists db. split; [reflexivity|]. intros r. split.
  - intros Hin. destruct (query_first (models.book_id r) db) as [old|] eqn:Hq.
    + f_equal. symmetry. now apply (only_row_of_key db (models.book_id r)).
    + exfalso. apply query_first_None in Hq. apply Hq. now apply in_map.
  - intros Hq. now destruct (query_first_Some _ _ _ Hq).
Qed.

Lemma get_all_books_agrees_with_query_witness :
  table_constraints [orwell] = true /\
  exists books,
    get_all_books [orwell] = (Return books, [orwell]) /\
    (forall r, In r books <-> query_first (models.book_id r) [orwell] = Some r).
Proof.
  split; [reflexivity|].
  exact (get_all_books_agrees_with_query [orwell] eq_refl).
Defined.

(** ** Start-up *)

(** The start-up loop proceeds exactly when one of the five attempts
    succeeds: it stops at the first attempt [k] that succeeds, having slept
    1, 2, ... [2^(k-1)] seconds, [2^k - 1] in all.  It raises only when the
    five attempts fail, after sleeping 1, 2, 4 and 8 seconds; it never sleeps
    after the fifth failure and never makes a sixth attempt. *)
Theorem connect_backoff (create_all : nat -> bool) :
  match connect create_all with
  | Proceeds slept =>
      exists k, (k < 5)%nat /\ create_all k = true /\
        (forall j, (j < k)%nat -> create_all j = false) /\
        slept = map (fun i => 2 ^ Z.of_nat i) (seq 0 k) /\
        fold_right Z.add 0 slept = 2 ^ Z.of_nat k - 1
  | Raises slept =>
      (forall j, (j < 5)%nat -> create_all j = false) /\ slept = [1; 2; 4; 8]
  end.
Proof.
  assert (forall k, (forall j, (j < k)%nat -> create_all j = false) ->
            create_all k = false ->
            forall j, (j < S k)%nat -> create_all j = false) as Hnext.
  { intros k Hk Ek j Hj. destruct (Nat.eq_dec j k) as [->|Hne]; [exact Ek|].
    apply Hk. lia. }
  assert (forall j, (j < 0)%nat -> create_all j = false) as H0 by (intros j Hj; lia).
  unfold connect. simpl.
  destruct (create_all 0%nat) eqn:E0.
  { exists 0%nat. repeat split; try assumption; lia. }
  pose proof (Hnext _ H0 E0) as H1.
  destruct (create_all 1%nat) eqn:E1.
  { exists 1%nat. repeat split; try assumption; lia. }
  pose proof (Hnext _ H1 E1) as H2.
  destruct (create_all 2%nat) eqn:E2.
  { exists 2%nat. repeat split; try assumption; lia. }
  pose proof (Hnext _ H2 E2) as H3.
  destruct (create_all 3%nat) eqn:E3.
  { exists 3%nat. repeat split; try assumption; lia. }
  pose proof (Hnext _ H3 E3) as H4.
  destruct (create_all 4%nat) eqn:E4.
  { exists 4%nat. repeat split; try assumption; lia. }
  split; [|reflexivity]. now apply Hnext.
Qed.

(** ** Borrowing and returning, on any stored book *)

Lemma replaced_replaced (id : Z) (a b : models.Book) (db : Database) :
  models.book_id b = id -> replaced id a (replaced id b db) = replaced id a db.
Proof.
  intros Hb. unfold replaced. rewrite map_map. apply map_ext. intros r.
  destruct (has_id id r) eqn:E; [|now rewrite E].
  apply has_id_true in Hb. now rewrite Hb.
Qed.

Lemma replaced_same (db : Database) (id : Z) (old : models.Book) :
  NoDup (map models.book_id db) -> query_first id db = Some old ->
  replaced id old db = db.
Proof.
  intros Hd Hq. unfold replaced. rewrite <- (map_id db) at 2. apply map_ext_in.
  intros r Hin. destruct (has_id id r) eqn:E; [|reflexivity].
  apply has_id_true in E. symmetry. now apply (only_row_of_key db id).
Qed.

Lemma replaced_comm (i j : Z) (a b : models.Book) (db : Database) :
  models.book_id a = i -> models.book_id b = j -> i <> j ->
  replaced i a (replaced j b db) = replaced j b (replaced i a db).
Proof.
  intros Ha Hb Hne. unfold replaced. rewrite !map_map. apply map_ext. intros r.
  assert (has_id i b = false) as Hib by (apply has_id_false; congruence).
  assert (has_id j a = false) as Hja by (apply has_id_false; congruence).
  destruct (has_id i r) eqn:Ei; destruct (has_id j r) eqn:Ej;
    rewrite ?Hib, ?Hja, ?Ei, ?Ej; try reflexivity.
  apply has_id_true in Ei, Ej. congruence.
Qed.

Lemma reachable_coherent (rqs : list Request) : Forall coherent (serve_all rqs []).
Proof.
  apply serve_all_rows.
  - intros id t a _. apply coherent_new.
  - intros old card now _ _. apply coherent_borrowed.
  - intros old _ _. apply coherent_returned.
  - constructor.
Qed.

(** After any sequence of requests served from the empty table, borrowing a
    stored book that is not borrowed, with a 6-digit card number, and then
    returning it both succeed, the return gives back the book as it was
    before the borrowing, and the stored books are, up to the order in which
    they are listed, the ones before the borrowing: a query by [book_id] finds
    for every [book_id] what it found before. *)
Theorem borrow_then_return_restores_books
    (rqs : list Request) (book_id card : Z) (now : datetime) (old : models.Book) :
  let db := serve_all rqs [] in
  query_first book_id db = Some old ->
  models.is_borrowed old = false ->
  schemas.six_digits card = true ->
  exists lent db1 db2,
    PATCH_borrow book_id card now db = (Return lent, db1) /\
    models.is_borrowed lent = true /\
    models.borrower_card_number lent = Some card /\
    models.borrowed_date lent = Some now /\
    query_first book_id db1 = Some lent /\
    PATCH_return book_id db1 = (Return old, db2) /\
    Permutation db2 db /\
    (forall other, query_first other db2 = query_first other db).
Proof.
  intros db Hq Hb Hv.
  assert (table_constraints db = true) as Hc by now apply serve_all_constraints.
  pose proof Hc as Hc'. apply table_constraints_spec in Hc'. destruct Hc' as [Hd _].
  pose proof (stored_row_book_id_6_digits db book_id old Hc Hq) as H6.
  destruct (query_first_Some _ _ _ Hq) as [Hin Hid].
  assert (returned_row (borrowed_row old card now) = old) as Hback.
  { pose proof (reachable_coherent rqs) as Hco. rewrite Forall_forall in Hco.
    specialize (Hco old Hin). destruct Hco as [H1 H2].
    destruct old as [i t a b d c]. simpl in *. subst b. unfold returned_row. simpl.
    destruct d as [d|].
    - assert (false = true) by (apply H1; discriminate). discriminate.
    - destruct c as [c|]; [|reflexivity].
      exfalso. assert (@None datetime <> None) as H by (apply H2; discriminate).
      now apply H. }
  exists (borrowed_row old card now),
    (replaced book_id (borrowed_row old card now) db), db.
  assert (query_first book_id (replaced book_id (borrowed_row old card now) db)
          = Some (borrowed_row old card now)) as Hq1
    by now apply (query_first_replaced book_id db _ old).
  split; [|split; [reflexivity|split; [reflexivity|split; [reflexivity|
    split; [|split; [|split; [apply Permutation_refl|reflexivity]]]]]]].
  - unfold PATCH_borrow, schemas.validate_BorrowRequest. rewrite Hv.
    apply (borrow_book_free book_id (schemas.mkBorrowRequest card) now db old Hq Hb).
    simpl. now apply table_args_borrowed.
  - exact Hq1.
  - unfold PATCH_return.
    rewrite (return_book_taken book_id _ _ Hq1 eq_refl H6).
    rewrite Hback, replaced_replaced by exact Hid.
    now rewrite (replaced_same db book_id old).
Qed.

Lemma borrow_then_return_restores_books_witness :
  query_first 123456 (serve_all [Create 123456 "1984" "Orwell"] []) = Some orwell /\
  models.is_borrowed orwell = false /\
  schemas.six_digits 654321 = true /\
  exists lent db1 db2,
    PATCH_borrow 123456 654321 1700000000 (serve_all [Create 123456 "1984" "Orwell"] [])
      = (Return lent, db1) /\
    models.is_borrowed lent = true /\
    models.borrower_card_number lent = Some 654321 /\
    models.borrowed_date lent = Some 1700000000 /\
    query_first 123456 db1 = Some lent /\
    PATCH_return 123456 db1 = (Return orwell, db2) /\
    Permutation db2 (serve_all [Create 123456 "1984" "Orwell"] []) /\
    (forall other,
       query_first other db2 =
       query_first other (serve_all [Create 123456 "1984" "Orwell"] [])).
Proof.
  split; [reflexivity|split; [reflexivity|split; [reflexivity|]]].
  exact (borrow_then_return_restores_books [Create 123456 "1984" "Orwell"]
           123456 654321 1700000000 orwell eq_refl eq_refl eq_refl).
Defined.

(** ** Requests about different books *)

Lemma return_book_written (id : Z) (db : Database) (old : models.Book) :
  query_first id db = Some old -> models.is_borrowed old = true ->
  models.table_args (returned_row old) = true ->
  return_book id db = (Return (returned_row old), replaced id (returned_row old) db).
Proof.
  intros Hq Hb Hok. apply return_book_taken; try assumption.
  now apply table_args_book_id in Hok.
Qed.

Lemma return_book_refused (id : Z) (db : Database) (old : models.Book) :
  query_first id db = Some old -> models.is_borrowed old = true ->
  models.table_args (returned_row old) = false ->
  return_book id db = (Raise (HTTPException 500 "Failed to return book"), db).
Proof.
  intros Hq Hb Hok. unfold return_book, update_commit. rewrite Hq, Hb. simpl negb.
  cbv iota. fold (returned_row old). now rewrite Hok.
Qed.

Lemma PATCH_borrow_table (id card : Z) (now : datetime) (db : Database) :
  snd (PATCH_borrow id card now db) = db \/
  exists row, models.book_id row = id /\
              snd (PATCH_borrow id card now db) = replaced id row db.
Proof.
  unfold PATCH_borrow. destruct (schemas.validate_BorrowRequest card) as [rq|];
    [|now left].
  destruct (query_first id db) as [old|] eqn:Hq.
  - destruct (models.is_borrowed old) eqn:Hb.
    + left. now rewrite (borrow_book_taken id rq now db old).
    + destruct (models.table_args
                  (borrowed_row old (schemas.borrower_card_number rq) now)) eqn:Hok.
      * right. exists (borrowed_row old (schemas.borrower_card_number rq) now).
        rewrite (borrow_book_free id rq now db old) by assumption.
        split; [|reflexivity]. exact (proj2 (query_first_Some id db old Hq)).
      * left. now rewrite (borrow_book_refused id rq now db old).
  - left. now rewrite borrow_book_absent.
Qed.

Lemma PATCH_return_table (id : Z) (db : Database) :
  snd (PATCH_return id db) = db \/
  exists row, models.book_id row = id /\ snd (PATCH_return id db) = replaced id row db.
Proof.
  unfold PATCH_return. destruct (query_first id db) as [old|] eqn:Hq.
  - destruct (models.is_borrowed old) eqn:Hb.
    + destruct (models.table_args (returned_row old)) eqn:Hok.
      * right. exists (returned_row old).
        rewrite (return_book_written id db old) by assumption.
        split; [|reflexivity]. exact (proj2 (query_first_Some id db old Hq)).
      * left. now rewrite (return_book_refused id db old).
    + left. now rewrite (return_book_free id db old).
  - left. now rewrite return_book_absent.
Qed.

Lemma PATCH_borrow_after (id card : Z) (now : datetime) (db : Database)
    (j : Z) (other : models.Book) :
  models.book_id other = j -> id <> j ->
  PATCH_borrow id card now (replaced j other db) =
    (fst (PATCH_borrow id card now db),
     replaced j other (snd (PATCH_borrow id card now db))).
Proof.
  intros Hj Hne. unfold PATCH_borrow.
  destruct (schemas.validate_BorrowRequest card) as [rq|]; [|reflexivity].
  pose proof (query_first_replaced_other j id db other Hj Hne) as Hsame.
  destruct (query_first id db) as [old|] eqn:Hq.
  - destruct (models.is_borrowed old) eqn:Hb.
    + rewrite (borrow_book_taken id rq now db old) by assumption.
      now rewrite (borrow_book_taken id rq now _ old).
    + destruct (models.table_args
                  (borrowed_row old (schemas.borrower_card_number rq) now)) eqn:Hok.
      * rewrite (borrow_book_free id rq now db old) by assumption.
        rewrite (borrow_book_free id rq now _ old) by assumption. simpl.
        f_equal. apply replaced_comm; [|exact Hj|exact Hne].
        exact (proj2 (query_first_Some id db old Hq)).
      * rewrite (borrow_book_refused id rq now db old) by assumption.
        now rewrite (borrow_book_refused id rq now _ old).
  - rewrite (borrow_book_absent id rq now db) by assumption.
    now rewrite borrow_book_absent.
Qed.

Lemma PATCH_return_after (id : Z) (db : Database) (j : Z) (other : models.Book) :
  models.book_id other = j -> id <> j ->
  PATCH_return id (replaced j other db) =
    (fst (PATCH_return id db), replaced j other (snd (PATCH_return id db))).
Proof.
  intros Hj Hne. unfold PATCH_return.
  pose proof (query_first_replaced_other j id db other Hj Hne) as Hsame.
  destruct (query_first id db) as [old|] eqn:Hq.
  - destruct (models.is_borrowed old) eqn:Hb.
    + destruct (models.table_args (returned_row old)) eqn:Hok.
      * rewrite (return_book_written id db old) by assumption.
        rewrite (return_book_written id _ old) by assumption. simpl.
        f_equal. apply replaced_comm; [|exact Hj|exact Hne].
        exact (proj2 (query_first_Some id db old Hq)).
      * rewrite (return_book_refused id db old) by assumption.
        now rewrite (return_book_refused id _ old).
    + rewrite (return_book_free id db old) by assumption.
      now rewrite (return_book_free id _ old).
  - rewrite (return_book_absent id db) by assumption.
    now rewrite return_book_absent.
Qed.

Section DifferentBooks.

(** Two handlers that write, if at all, the row of one book each. *)
Variables f g : Database -> Result models.Book * Database.
Variables i j : Z.
Hypothesis different : i <> j.
Hypothesis f_table : forall db,
  snd (f db) = db \/ exists row, models.book_id row = i /\ snd (f db) = replaced i row db.
Hypothesis g_table : forall db,
  snd (g db) = db \/ exists row, models.book_id row = j /\ snd (g db) = replaced j row db.
Hypothesis f_after : forall db other, models.book_id other = j ->
  f (replaced j other db) = (fst (f db), replaced j other (snd (f db))).
Hypothesis g_after : forall db other, models.book_id other = i ->
  g (replaced i other db) = (fst (g db), replaced i other (snd (g db))).

Lemma second_after_first (db : Database) :
  g (snd (f db)) = (fst (g db), snd (f (snd (g db)))).
Proof.
  destruct (f_table db) as [Hf|[a [Ha Hf]]];
    destruct (g_table db) as [Hg|[b [Hb Hg]]].
  - rewrite Hf, Hg, Hf. destruct (g db) as [answer table]. simpl in Hg. now subst table.
  - rewrite Hf, Hg, (f_after db b Hb). simpl. rewrite Hf.
    destruct (g db) as [answer table]. simpl in Hg. now subst table.
  - rewrite Hf, Hg, (g_after db a Ha), Hg, Hf. reflexivity.
  - rewrite Hf, Hg, (g_after db a Ha), (f_after db b Hb). simpl.
    rewrite Hf, Hg. f_equal. now apply replaced_comm.
Qed.

End DifferentBooks.

(** A request about one book leaves the others alone: after [create_book],
    [delete_book], [borrow_book] or [return_book] on a [book_id], whatever the
    answer, the query for any other [book_id] finds what it found before. *)
Theorem requests_leave_other_books
    (db : Database) (book_id other : Z) (title author : string)
    (card : Z) (now : datetime) :
  other <> book_id ->
  query_first other (snd (POST_books book_id title author db)) = query_first other db /\
  query_first other (snd (DELETE_books book_id db)) = query_first other db /\
  query_first other (snd (PATCH_borrow book_id card now db)) = query_first other db /\
  query_first other (snd (PATCH_return book_id db)) = query_first other db.
Proof.
  intros Hne. split; [|split; [|split]].
  - destruct (POST_books_written book_id title author db) as [->|[_ [_ [_ ->]]]];
      [reflexivity|].
    simpl. apply query_first_app_other. simpl. congruence.
  - rewrite DELETE_books_table. now apply query_first_deleted_other.
  - destruct (PATCH_borrow_table book_id card now db) as [->|[row [Hrow ->]]];
      [reflexivity|now apply query_first_replaced_other].
  - destruct (PATCH_return_table book_id db) as [->|[row [Hrow ->]]];
      [reflexivity|now apply query_first_replaced_other].
Qed.

Lemma requests_leave_other_books_witness :
  654321 <> 123456 /\
  query_first 654321 (snd (DELETE_books 123456 [orwell])) = query_first 654321 [orwell] /\
  query_first 654321 (snd (PATCH_borrow 123456 654321 1700000000 [orwell])) =
    query_first 654321 [orwell].
Proof.
  split; [lia|].
  destruct (requests_leave_other_books [orwell] 123456 654321 "1984" "Orwell"
              654321 1700000000 ltac:(lia)) as [_ [H1 [H2 _]]].
  split; [exact H1|exact H2].
Defined.

Lemma different_books_in_place
    (db : Database) (id1 id2 card1 card2 : Z) (now1 now2 : datetime) :
  id1 <> id2 ->
  PATCH_borrow id2 card2 now2 (snd (PATCH_borrow id1 card1 now1 db)) =
    (fst (PATCH_borrow id2 card2 now2 db),
     snd (PATCH_borrow id1 card1 now1 (snd (PATCH_borrow id2 card2 now2 db)))) /\
  PATCH_return id2 (snd (PATCH_borrow id1 card1 now1 db)) =
    (fst (PATCH_return id2 db),
     snd (PATCH_borrow id1 card1 now1 (snd (PATCH_return id2 db)))) /\
  PATCH_borrow id1 card1 now1 (snd (PATCH_return id2 db)) =
    (fst (PATCH_borrow id1 card1 now1 db),
     snd (PATCH_return id2 (snd (PATCH_borrow id1 card1 now1 db)))) /\
  PATCH_return id2 (snd (PATCH_return id1 db)) =
    (fst (PATCH_return id2 db), snd (PATCH_return id1 (snd (PATCH_return id2 db)))).
Proof.
  intros Hne. assert (id2 <> id1) as Hne' by congruence.
  split; [|split; [|split]].
  - apply (second_after_first (PATCH_borrow id1 card1 now1) (PATCH_borrow id2 card2 now2)
             id1 id2 Hne).
    + intros d. apply PATCH_borrow_table.
    + intros d. apply PATCH_borrow_table.
    + intros d other Ho. now apply PATCH_borrow_after.
    + intros d other Ho. now apply PATCH_borrow_after.
  - apply (second_after_first (PATCH_borrow id1 card1 now1) (PATCH_return id2)
             id1 id2 Hne).
    + intros d. apply PATCH_borrow_table.
    + intros d. apply PATCH_return_table.
    + intros d other Ho. now apply PATCH_borrow_after.
    + intros d other Ho. now apply PATCH_return_after.
  - apply (second_after_first (PATCH_return id2) (PATCH_borrow id1 card1 now1)
             id2 id1 Hne').
    + intros d. apply PATCH_return_table.
    + intros d. apply PATCH_borrow_table.
    + intros d other Ho. now apply PATCH_return_after.
    + intros d other Ho. now apply PATCH_borrow_after.
  - apply (second_after_first (PATCH_return id1) (PATCH_return id2) id1 id2 Hne).
    + intros d. apply PATCH_return_table.
    + intros d. apply PATCH_return_table.
    + intros d other Ho. now apply PATCH_return_after.
    + intros d other Ho. now apply PATCH_return_after.
Qed.

(** Borrowings and returns of two different books can be served in either
    order: each request is answered as it would be without the other one, and
    the books stored after both are the same in both orders, up to the order
    in which they are listed. *)
Theorem different_books_commute
    (db : Database) (id1 id2 card1 card2 : Z) (now1 now2 : datetime) :
  id1 <> id2 ->
  let borrow1 := PATCH_borrow id1 card1 now1 in
  let borrow2 := PATCH_borrow id2 card2 now2 in
  let return1 := PATCH_return id1 in
  let return2 := PATCH_return id2 in
  (fst (borrow2 (snd (borrow1 db))) = fst (borrow2 db) /\
   fst (borrow1 (snd (borrow2 db))) = fst (borrow1 db) /\
   Permutation (snd (borrow2 (snd (borrow1 db)))) (snd (borrow1 (snd (borrow2 db))))) /\
  (fst (return2 (snd (borrow1 db))) = fst (return2 db) /\
   fst (borrow1 (snd (return2 db))) = fst (borrow1 db) /\
   Permutation (snd (return2 (snd (borrow1 db)))) (snd (borrow1 (snd (return2 db))))) /\
  (fst (return2 (snd (return1 db))) = fst (return2 db) /\
   fst (return1 (snd (return2 db))) = fst (return1 db) /\
   Permutation (snd (return2 (snd (return1 db)))) (snd (return1 (snd (return2 db))))).
Proof.
  intros Hne borrow1 borrow2 return1 return2.
  assert (id2 <> id1) as Hne' by congruence.
  destruct (different_books_in_place db id1 id2 card1 card2 now1 now2 Hne)
    as [Hbb [Hbr [Hrb Hrr]]].
  destruct (different_books_in_place db id2 id1 card2 card1 now2 now1 Hne')
    as [Hbb' [_ [_ Hrr']]].
  unfold borrow1, borrow2, return1, return2.
  split; [|split].
  - rewrite Hbb, Hbb'. simpl. rewrite Hbb. simpl.
    repeat split; apply Permutation_refl.
  - rewrite Hbr, Hrb. simpl. rewrite Hbr. simpl.
    repeat split; apply Permutation_refl.
  - rewrite Hrr, Hrr'. simpl. rewrite Hrr. simpl.
    repeat split; apply Permutation_refl.
Qed.

Lemma different_books_commute_witness :
  123456 <> 234567 /\
  fst (PATCH_borrow 234567 111222 1700000001
         (snd (PATCH_borrow 123456 654321 1700000000
                 [orwell; models.mkBook 234567 "Emma" "Austen" false None None]))) =
  fst (PATCH_borrow 234567 111222 1700000001
         [orwell; models.mkBook 234567 "Emma" "Austen" false None None]) /\
  Permutation
    (snd (PATCH_borrow 234567 111222 1700000001
            (snd (PATCH_borrow 123456 654321 1700000000
                    [orwell; models.mkBook 234567 "Emma" "Austen" false None None]))))
    (snd (PATCH_borrow 123456 654321 1700000000
            (snd (PATCH_borrow 234567 111222 1700000001
                    [orwell; models.mkBook 234567 "Emma" "Austen" false None None])))).
Proof.
  split; [lia|].
  destruct (different_books_commute
              [orwell; models.mkBook 234567 "Emma" "Austen" false None None]
              123456 234567 654321 111222 1700000000 1700000001 ltac:(lia))
    as [[H1 [_ H2]] _].
  split; [exact H1|exact H2].
Defined.

(** ** Deleting and creating again, returning and borrowing again *)

(** A [book_id] is free again after [delete_book]: whatever the table and
    whatever the deleted book was (borrowed or not), [create_book] with that
    6-digit [book_id] and a [title] and [author] without the character NUL
    then succeeds, and the stored book is the new one, not borrowed and
    without borrower. *)
Theorem create_after_delete
    (db : Database) (book_id : Z) (title author : string) :
  schemas.six_digits book_id = true ->
  storable_text title && storable_text author = true ->
  let db1 := snd (DELETE_books book_id db) in
  let new_book := models.mkBook book_id title author false None None in
  POST_books book_id title author db1 = (Return new_book, db1 ++ [new_book]) /\
  query_first book_id (db1 ++ [new_book]) = Some new_book.
Proof.
  intros Hv Hs db1 new_book.
  assert (query_first book_id db1 = None) as Hq
    by (unfold db1; rewrite DELETE_books_table; apply query_first_deleted).
  split.
  - unfold POST_books, schemas.validate_BookCreate. rewrite Hv.
    now apply (create_book_fresh (schemas.mkBookCreate book_id title author) db1).
  - now apply query_first_app_new.
Qed.

Lemma create_after_delete_witness :
  schemas.six_digits 123456 = true /\
  storable_text "1984" && storable_text "Orwell" = true /\
  POST_books 123456 "1984" "Orwell" (snd (DELETE_books 123456 [orwell_lent])) =
    (Return orwell, [orwell]).
Proof.
  split; [reflexivity|]. split; [reflexivity|].
  exact (proj1 (create_after_delete [orwell_lent] 123456 "1984" "Orwell"
                  eq_refl eq_refl)).
Defined.

(** On a table kept by the database, a returned book can be borrowed again:
    after [return_book] on a borrowed book, [borrow_book] with any 6-digit
    card number succeeds and records that card number and the time of the
    new borrowing, not the previous ones. *)
Theorem return_then_borrow_again
    (db : Database) (book_id card : Z) (now : datetime) (old : models.Book) :
  table_constraints db = true ->
  query_first book_id db = Some old ->
  models.is_borrowed old = true ->
  schemas.six_digits card = true ->
  exists back db1,
    PATCH_return book_id db = (Return back, db1) /\
    PATCH_borrow book_id card now db1 =
      (Return (models.mkBook (models.book_id old) (models.title old) (models.author old)
                             true (Some now) (Some card)),
       replaced book_id
         (models.mkBook (models.book_id old) (models.title old) (models.author old)
                        true (Some now) (Some card)) db).
Proof.
  intros Hc Hq Hb Hv.
  pose proof (stored_row_book_id_6_digits db book_id old Hc Hq) as H6.
  destruct (query_first_Some _ _ _ Hq) as [_ Hid].
  exists (returned_row old), (replaced book_id (returned_row old) db).
  split.
  - unfold PATCH_return. now apply return_book_taken.
  - unfold PATCH_borrow, schemas.validate_BorrowRequest. rewrite Hv.
    assert (query_first book_id (replaced book_id (returned_row old) db)
            = Some (returned_row old)) as Hq1
      by now apply (query_first_replaced book_id db _ old).
    rewrite (borrow_book_free book_id (schemas.mkBorrowRequest card) now _
               (returned_row old) Hq1 eq_refl).
    + simpl. f_equal. now apply replaced_replaced.
    + simpl. now apply table_args_borrowed.
Qed.

Lemma return_then_borrow_again_witness :
  table_constraints [orwell_lent] = true /\
  query_first 123456 [orwell_lent] = Some orwell_lent /\
  models.is_borrowed orwell_lent = true /\
  schemas.six_digits 111222 = true /\
  exists back db1,
    PATCH_return 123456 [orwell_lent] = (Return back, db1) /\
    PATCH_borrow 123456 111222 1700000500 db1 =
      (Return (models.mkBook 123456 "1984" "Orwell" true (Some 1700000500) (Some 111222)),
       [models.mkBook 123456 "1984" "Orwell" true (Some 1700000500) (Some 111222)]).
Proof.
  split; [reflexivity|split; [reflexivity|split; [reflexivity|split; [reflexivity|]]]].
  exact (return_then_borrow_again [orwell_lent] 123456 111222 1700000500 orwell_lent
           eq_refl eq_refl eq_refl eq_refl).
Defined.

(** ** The tests that draw a [book_id] *)

(** [test_create_book] and [test_delete_non_existent_book] pass exactly when
    the 6-digit [book_id] they draw is not the [book_id] of a stored book. *)
Theorem drawn_id_tests_pass_iff_fresh (db : Database) (book_id : Z) :
  schemas.six_digits book_id = true ->
  (test_create_book book_id db = true <-> query_first book_id db = None) /\
  (test_delete_non_existent_book book_id db = true <-> query_first book_id db = None).
Proof.
  intros Hv. split.
  - unfold test_create_book, POST_books, schemas.validate_BookCreate. rewrite Hv.
    destruct (query_first book_id db) as [old|] eqn:Hq.
    + rewrite (create_book_taken _ db old) by exact Hq. simpl. split; discriminate.
    + rewrite create_book_fresh by (try assumption; reflexivity). simpl.
      rewrite Z.eqb_refl. split; reflexivity.
  - unfold test_delete_non_existent_book, DELETE_books.
    destruct (query_first book_id db) as [old|] eqn:Hq.
    + rewrite (delete_book_present book_id db old Hq). simpl. split; discriminate.
    + rewrite delete_book_absent by exact Hq. simpl. split; reflexivity.
Qed.

Lemma drawn_id_tests_pass_iff_fresh_witness :
  schemas.six_digits 123456 = true /\
  (test_create_book 123456 [orwell] = true <-> query_first 123456 [orwell] = None) /\
  (test_delete_non_existent_book 123456 [orwell] = true <->
   query_first 123456 [orwell] = None).
Proof.
  split; [reflexivity|].
  exact (drawn_id_tests_pass_iff_fresh [orwell] 123456 eq_refl).
Defined.

(** ** Two borrowings of one book served at once *)

Lemma borrow_book_read_then_write (book_id : Z) (borrow_request : schemas.BorrowRequest)
    (now : datetime) (db : Database) :
  borrow_book book_id borrow_request now db =
    match borrow_book_read book_id db with
    | Return db_book => borrow_book_write db_book borrow_request now db
    | Raise e => (Raise e, db)
    end.
Proof.
  unfold borrow_book, borrow_book_read, borrow_book_write.
  destruct (query_first book_id db) as [db_book|]; [|reflexivity].
  destruct (models.is_borrowed db_book); reflexivity.
Qed.

Lemma race_one_after_the_other (book_id : Z) (request1 request2 : schemas.BorrowRequest)
    (now1 now2 : datetime) (db : Database) :
  race book_id request1 request2 now1 now2 [true; true; false; false]
       (Waiting, Waiting, db) =
    (Answered (fst (borrow_book book_id request1 now1 db)),
     Answered (fst (borrow_book book_id request2 now2
                      (snd (borrow_book book_id request1 now1 db)))),
     snd (borrow_book book_id request2 now2
            (snd (borrow_book book_id request1 now1 db)))).
Proof.
  rewrite !borrow_book_read_then_write. simpl.
  destruct (borrow_book_read book_id db) as [b1|e1] eqn:E1; simpl.
  - destruct (borrow_book_write b1 request1 now1 db) as [a1 db1]. simpl.
    destruct (borrow_book_read book_id db1) as [b2|e2]; simpl; [|reflexivity].
    now destruct (borrow_book_write b2 request2 now2 db1).
  - now rewrite E1.
Qed.

Lemma borrow_book_read_free (id : Z) (db : Database) (old : models.Book) :
  query_first id db = Some old -> models.is_borrowed old = false ->
  borrow_book_read id db = Return old.
Proof. intros Hq Hb. unfold borrow_book_read. now rewrite Hq, Hb. Qed.

Lemma borrow_book_write_done (id : Z) (held current : models.Book)
    (rq : schemas.BorrowRequest) (now : datetime) (db : Database) :
  models.book_id held = id -> query_first id db = Some current ->
  models.table_args (borrowed_row held (schemas.borrower_card_number rq) now) = true ->
  borrow_book_write held rq now db =
    (Return (borrowed_row held (schemas.borrower_card_number rq) now),
     replaced id (borrowed_row held (schemas.borrower_card_number rq) now) db).
Proof.
  intros Hid Hq Hok. unfold borrow_book_write, update_commit, refresh.
  fold (borrowed_row held (schemas.borrower_card_number rq) now). rewrite Hok.
  change (models.book_id (borrowed_row held (schemas.borrower_card_number rq) now))
    with (models.book_id held). rewrite Hid.
  fold (replaced id (borrowed_row held (schemas.borrower_card_number rq) now) db).
  now rewrite (query_first_replaced id db _ current).
Qed.

Lemma advance_waiting (id : Z) (rq : schemas.BorrowRequest) (now : datetime)
    (db : Database) (old : models.Book) :
  query_first id db = Some old -> models.is_borrowed old = false ->
  advance id rq now Waiting db = (Loaded old, db).
Proof.
  intros Hq Hb. unfold advance. now rewrite (borrow_book_read_free id db old).
Qed.

Lemma advance_loaded (id : Z) (held current : models.Book)
    (rq : schemas.BorrowRequest) (now : datetime) (db : Database) :
  models.book_id held = id -> query_first id db = Some current ->
  models.table_args (borrowed_row held (schemas.borrower_card_number rq) now) = true ->
  advance id rq now (Loaded held) db =
    (Answered (Return (borrowed_row held (schemas.borrower_card_number rq) now)),
     replaced id (borrowed_row held (schemas.borrower_card_number rq) now) db).
Proof.
  intros Hid Hq Hok. unfold advance.
  now rewrite (borrow_book_write_done id held current rq now db).
Qed.

(** C9 fails on the code.  Two borrowings of one stored, not borrowed book,
    with 6-digit card numbers, whose accesses to the database alternate (both
    read the book before either writes it), both succeed: each request is
    answered with the book borrowed on its own card, and the stored book
    carries the card number and the time of the request that wrote last; the
    borrowing written first is lost.  Neither request fails with
    AlreadyBorrowed. *)
Theorem concurrent_borrows_both_succeed
    (db : Database) (book_id : Z) (request1 request2 : schemas.BorrowRequest)
    (now1 now2 : datetime) (old : models.Book) :
  table_constraints db = true ->
  query_first book_id db = Some old ->
  models.is_borrowed old = false ->
  schemas.six_digits (schemas.borrower_card_number request1) = true ->
  schemas.six_digits (schemas.borrower_card_number request2) = true ->
  let lent1 :=
    models.mkBook (models.book_id old) (models.title old) (models.author old)
                  true (Some now1) (Some (schemas.borrower_card_number request1)) in
  let lent2 :=
    models.mkBook (models.book_id old) (models.title old) (models.author old)
                  true (Some now2) (Some (schemas.borrower_card_number request2)) in
  exists db2,
    race book_id request1 request2 now1 now2 [true; false; true; false]
         (Waiting, Waiting, db) =
      (Answered (Return lent1), Answered (Return lent2), db2) /\
    query_first book_id db2 = Some lent2.
Proof.
  intros Hc Hq Hb Hv1 Hv2 lent1 lent2. subst lent1 lent2.
  fold (borrowed_row old (schemas.borrower_card_number request1) now1).
  fold (borrowed_row old (schemas.borrower_card_number request2) now2).
  set (lent1 := borrowed_row old (schemas.borrower_card_number request1) now1).
  set (lent2 := borrowed_row old (schemas.borrower_card_number request2) now2).
  pose proof (stored_row_book_id_6_digits db book_id old Hc Hq) as H6.
  destruct (query_first_Some _ _ _ Hq) as [_ Hid].
  assert (query_first book_id (replaced book_id lent1 db) = Some lent1) as Hq1
    by now apply (query_first_replaced book_id db _ old).
  exists (replaced book_id lent2 (replaced book_id lent1 db)). split.
  - cbn [race].
    rewrite (advance_waiting book_id request1 now1 db old Hq Hb). cbv beta iota zeta.
    rewrite (advance_waiting book_id request2 now2 db old Hq Hb). cbv beta iota zeta.
    rewrite (advance_loaded book_id old old request1 now1 db Hid Hq)
      by (now apply table_args_borrowed).
    cbv beta iota zeta. fold lent1.
    rewrite (advance_loaded book_id old lent1 request2 now2 _ Hid Hq1)
      by (now apply table_args_borrowed).
    reflexivity.
  - now apply (query_first_replaced book_id _ _ lent1).
Qed.

Lemma concurrent_borrows_both_succeed_witness :
  table_constraints [orwell] = true /\
  query_first 123456 [orwell] = Some orwell /\
  models.is_borrowed orwell = false /\
  race 123456 (schemas.mkBorrowRequest 654321) (schemas.mkBorrowRequest 111222)
       1700000000 1700000001 [true; false; true; false] (Waiting, Waiting, [orwell]) =
    (Answered (Return orwell_lent),
     Answered (Return (models.mkBook 123456 "1984" "Orwell" true
                                     (Some 1700000001) (Some 111222))),
     [models.mkBook 123456 "1984" "Orwell" true (Some 1700000001) (Some 111222)]).
Proof.
  split; [reflexivity|split; [reflexivity|split; [reflexivity|]]].
  destruct (concurrent_borrows_both_succeed [orwell] 123456
              (schemas.mkBorrowRequest 654321) (schemas.mkBorrowRequest 111222)
              1700000000 1700000001 orwell eq_refl eq_refl eq_refl eq_refl eq_refl)
    as [db2 [H _]].
  simpl in H. injection H as H. subst db2. reflexivity.
Defined.
